(** * decorated_watchdog: a shallow embedding of [decorated_watchdog.py]

    The module wraps watchdog's [Observer] (a background thread that reports
    file-system events) and asyncio's event loop.  Python objects that are
    shared and mutated in place (the class-level callback list, the observer,
    the event loop) live in a heap and are reached through references;
    exceptions leave the heap as it was at the point of the [raise]. *)

From stdpp Require Import gmap strings list.

Local Open Scope string_scope.
Local Open Scope list_scope.

(** ** Module constants *)

Definition EVENT_TYPE_ANY : string := "any".
Definition EVENT_TYPE_MOVED : string := "moved".
Definition EVENT_TYPE_DELETED : string := "deleted".
Definition EVENT_TYPE_CREATED : string := "created".
Definition EVENT_TYPE_MODIFIED : string := "modified".
Definition VERSION : string := "0.0.0".

(** ** Values *)

Definition loc := nat.

(** [watchdog.events.FileSystemEvent].  The concrete events the observer
    emits carry one of the four type strings below. *)
Module FileSystemEvent.
Record t := mk { event_type : string; src_path : string; is_directory : bool }.
End FileSystemEvent.

Inductive WatchdogKind := Moved | Deleted | Created | Modified.

Definition kind_event_type (k : WatchdogKind) : string :=
  match k with
  | Moved => EVENT_TYPE_MOVED
  | Deleted => EVENT_TYPE_DELETED
  | Created => EVENT_TYPE_CREATED
  | Modified => EVENT_TYPE_MODIFIED
  end.

Definition watchdog_event (k : WatchdogKind) (path : string) (is_dir : bool)
  : FileSystemEvent.t :=
  FileSystemEvent.mk (kind_event_type k) path is_dir.

(** A Python callable.  [fn_id] is the object's identity; [is_async_def]
    tells whether it was defined with [async def]. *)
Record Callable := { fn_id : nat; is_async_def : bool }.

(** [inspect.iscoroutinefunction] *)
Definition iscoroutinefunction (f : Callable) : bool := is_async_def f.

(** What a call [f(event)] evaluates to: an [async def] yields a coroutine
    object whose body has not started; a plain function has run and
    returned [None]. *)
Inductive PyVal :=
  | VNone
  | VCoroutine (fn : nat) (ev : FileSystemEvent.t).

Inductive Exn :=
  | Exception (msg : string)
  | RuntimeError (msg : string)
  | AttributeError (name : string)
  | FileNotFoundError (path : string)
  | TypeError.

(** [FSCallback] is a pydantic model; its constructor checks the fields
    against their annotations (two strings and a callable), which the types
    here already impose, so construction cannot fail. *)
Module FSCallback.
Record t := mk
  { event_type : string;
    event_path : string;
    callback_function : Callable }.
End FSCallback.

Module Handler.
(** The fields [FSAsyncEventHandler.__init__] sets. *)
Record t := mk
  { callback_function : Callable;
    loop : loc;
    event_type_trigger : string }.
End Handler.

Record ObservedWatch := { watch_path : string; watch_recursive : bool }.

(** A callback queued on the loop by [call_soon_threadsafe]; the callback is
    always [asyncio.create_task] here. *)
Inductive Handle := CreateTask (arg : PyVal).

Record EventLoop := { closed : bool; ready : list Handle }.

(** watchdog's observer, as far as this module drives it: a thread that is
    started at most once, a stop signal, whether the thread has been joined
    after the signal, and the handlers subscribed per watch. *)
Record Observer :=
  { started : bool;
    stopped_event : bool;
    terminated : bool;
    handlers : list (ObservedWatch * Handler.t) }.

(** What a reference leads to: a Python object of the module or, at one
    fixed place, what the observer finds of the file system, given as the
    paths that are not there. *)
Inductive Obj :=
  | OList (l : list FSCallback.t)
  | OObserver (o : Observer)
  | OLoop (l : EventLoop)
  | OMissing (paths : list string).

(** Calls that cross the module's boundary, in program order. *)
Inductive Effect :=
  | RunBody (fn : nat) (ev : FileSystemEvent.t)
  | CallSoon (l : loc) (arg : PyVal)
  | ObsSchedule (h : Handler.t) (path : string) (recursive : bool)
  | ObsStart
  | ObsStop
  | ObsJoin
  | Sleep (seconds : nat).

Record World := { heap : gmap loc Obj; trace : list Effect }.

Global Instance Callable_eq_dec : EqDecision Callable.
Proof. solve_decision. Defined.
Global Instance ObservedWatch_eq_dec : EqDecision ObservedWatch.
Proof. solve_decision. Defined.

(** ** Computations: state, exceptions, blocking *)

Inductive Outcome (A : Type) :=
  | Returned (a : A)
  | Raised (e : Exn)
  | Blocked.
Arguments Returned {A} a.
Arguments Raised {A} e.
Arguments Blocked {A}.

Definition Py (A : Type) : Type := World → Outcome A * World.

Global Instance Py_ret : MRet Py := λ A a σ, (Returned a, σ).
Global Instance Py_bind : MBind Py := λ A B f m σ,
  match m σ with
  | (Returned a, σ') => f a σ'
  | (Raised e, σ') => (Raised e, σ')
  | (Blocked, σ') => (Blocked, σ')
  end.

Definition raise {A} (e : Exn) : Py A := λ σ, (Raised e, σ).
Definition block {A} : Py A := λ σ, (Blocked, σ).
Definition log (e : Effect) : Py unit :=
  λ σ, (Returned tt, {| heap := heap σ; trace := trace σ ++ [e] |}).
Definition store (l : loc) (v : Obj) : Py unit :=
  λ σ, (Returned tt, {| heap := <[l := v]> (heap σ); trace := trace σ |}).

Definition deref_list (l : loc) : Py (list FSCallback.t) := λ σ,
  match heap σ !! l with
  | Some (OList cbs) => (Returned cbs, σ)
  | _ => (Raised TypeError, σ)
  end.
Definition deref_observer (l : loc) : Py Observer := λ σ,
  match heap σ !! l with
  | Some (OObserver o) => (Returned o, σ)
  | _ => (Raised TypeError, σ)
  end.
Definition deref_loop (l : loc) : Py EventLoop := λ σ,
  match heap σ !! l with
  | Some (OLoop lp) => (Returned lp, σ)
  | _ => (Raised TypeError, σ)
  end.

(** [for _ in range(n): body] *)
Fixpoint for_range (n : nat) (body : Py unit) : Py unit :=
  match n with
  | 0 => mret tt
  | S n' => body ;; for_range n' body
  end.

(** ** The libraries the module calls

    asyncio and watchdog are not part of the repository; the operations
    below state the behaviour this module depends on. *)

(** Calling [f(event)]: only a plain function runs its body at the call.
    What that body does and returns is up to the function; it is kept here
    as one effect on the calling thread and the result [None]. *)
Definition call_callable (f : Callable) (ev : FileSystemEvent.t) : Py PyVal :=
  if iscoroutinefunction f
  then mret (VCoroutine (fn_id f) ev)
  else log (RunBody (fn_id f) ev) ;; mret VNone.

Module asyncio.
(** [loop.call_soon_threadsafe(asyncio.create_task, arg)]: a closed loop
    refuses with [RuntimeError], an open one queues the callback. *)
Definition call_soon_threadsafe (l : loc) (arg : PyVal) : Py unit :=
  log (CallSoon l arg) ;;
  lp ← deref_loop l;
  if closed lp
  then raise (RuntimeError "Event loop is closed")
  else store l (OLoop {| closed := closed lp;
                         ready := ready lp ++ [CreateTask arg] |}).

(** [await asyncio.sleep(seconds)] *)
Definition sleep (seconds : nat) : Py unit := log (Sleep seconds).

(** [loop.run_until_complete(coro)] drives the coroutine to its end; it is
    called from synchronous code, where no loop is running yet. *)
Definition run_until_complete {A} (l : loc) (coro : Py A) : Py A :=
  lp ← deref_loop l;
  if closed lp
  then raise (RuntimeError "Event loop is closed")
  else coro.
End asyncio.

Module watchdog.
(** [observer.schedule(event_handler, path, recursive)] *)
Definition schedule (l : loc) (h : Handler.t) (path : string)
    (recursive : bool) : Py ObservedWatch :=
  log (ObsSchedule h path recursive) ;;
  o ← deref_observer l;
  let w := {| watch_path := path; watch_recursive := recursive |} in
  store l (OObserver {| started := started o;
                        stopped_event := stopped_event o;
                        terminated := terminated o;
                        handlers := handlers o ++ [(w, h)] |}) ;;
  mret w.

(** Where the file system's missing paths are kept; with nothing recorded
    there, every path is there. *)
Definition fs_loc : loc := 3.

Definition path_missing (σ : World) (path : string) : bool :=
  match heap σ !! fs_loc with
  | Some (OMissing paths) => bool_decide (path ∈ paths)
  | _ => false
  end.

(** The first subscribed path that is not there, if any. *)
Definition first_missing (σ : World) (hs : list (ObservedWatch * Handler.t))
  : option string :=
  head (filter (λ p, path_missing σ p = true) (map (λ wh, watch_path (fst wh)) hs)).

(** [observer.start()]: begins to watch every subscribed path, which fails
    for a path that is not there, and then starts the thread, which a
    thread object does once. *)
Definition start (l : loc) : Py unit :=
  log ObsStart ;;
  o ← deref_observer l;
  missing ← (λ σ, (Returned (first_missing σ (handlers o)), σ));
  match missing with
  | Some path => raise (FileNotFoundError path)
  | None =>
      if started o
      then raise (RuntimeError "threads can only be started once")
      else store l (OObserver {| started := true;
                                 stopped_event := stopped_event o;
                                 terminated := terminated o;
                                 handlers := handlers o |})
  end.

(** [observer.stop()]: sets the stop signal and drops every subscription,
    in any state. *)
Definition stop (l : loc) : Py unit :=
  log ObsStop ;;
  o ← deref_observer l;
  store l (OObserver {| started := started o;
                        stopped_event := true;
                        terminated := terminated o;
                        handlers := [] |}).

(** [observer.join()]: refuses a thread that was never started, returns
    once a signalled thread has ended, and waits for ever on a running
    thread nobody signalled. *)
Definition join (l : loc) : Py unit :=
  log ObsJoin ;;
  o ← deref_observer l;
  if negb (started o)
  then raise (RuntimeError "cannot join thread before it is started")
  else if terminated o then mret tt
  else if stopped_event o
  then store l (OObserver {| started := started o;
                             stopped_event := stopped_event o;
                             terminated := true;
                             handlers := handlers o |})
  else block.

(** The observer thread hands out notifications from its start until it
    is signalled to stop or has ended. *)
Definition can_deliver (o : Observer) : bool :=
  started o && negb (stopped_event o) && negb (terminated o).
End watchdog.

(** ** class FSAsyncEventHandler *)

Module FSAsyncEventHandler.
(** The default of [__init__]'s [loop] argument, [asyncio.get_event_loop()],
    is evaluated once, when the class body is executed. *)
Definition default_loop : loc := 0.

Definition __init__ (callback : FSCallback.t) (loop : loc) : Handler.t :=
  {| Handler.callback_function := FSCallback.callback_function callback;
     Handler.loop := loop;
     Handler.event_type_trigger := FSCallback.event_type callback |}.

Definition dispatch (self : Handler.t) (event : FileSystemEvent.t)
  : Py unit :=
  if String.eqb (FileSystemEvent.event_type event)
                (Handler.event_type_trigger self)
  then
    coro ← call_callable (Handler.callback_function self) event;
    asyncio.call_soon_threadsafe (Handler.loop self) coro
  else mret tt.
End FSAsyncEventHandler.

(** The observer thread handing one notification of watch [w] to the
    handlers subscribed for it; they are taken in the order of the table. *)
Fixpoint dispatch_all (hs : list (ObservedWatch * Handler.t))
    (w : ObservedWatch) (ev : FileSystemEvent.t) : Py unit :=
  match hs with
  | [] => mret tt
  | (w', h) :: rest =>
      (if decide (w' = w) then FSAsyncEventHandler.dispatch h ev else mret tt) ;;
      dispatch_all rest w ev
  end.

(** The observer thread ending because an exception reached its run loop. *)
Definition kill_thread (l : loc) : Py unit :=
  o ← deref_observer l;
  store l (OObserver {| started := started o;
                        stopped_event := stopped_event o;
                        terminated := true;
                        handlers := handlers o |}).

(** One turn of the observer thread's loop, for a notification [ev] of
    watch [w]. *)
Definition deliver (l : loc) (w : ObservedWatch) (ev : FileSystemEvent.t)
  : Py unit := λ σ,
  match deref_observer l σ with
  | (Returned o, _) =>
      if watchdog.can_deliver o then
        match dispatch_all (handlers o) w ev σ with
        | (Raised e, σ') => (Raised e, snd (kill_thread l σ'))
        | r => r
        end
      else (Returned tt, σ)
  | (Raised e, σ') => (Raised e, σ')
  | (Blocked, σ') => (Blocked, σ')
  end.

(** ** class FSWatcher *)

Module FSWatcher.
(** The class body creates one observer, one list and one loop reference
    and binds them as class attributes. *)
Definition observer_loc : loc := 1.
Definition callbacks_loc : loc := 2.

Definition class_dict : gmap string loc :=
  <["_observer" := observer_loc]>
    (<["_callbacks" := callbacks_loc]>
       (<["_loop" := FSAsyncEventHandler.default_loop]> ∅)).

(** An instance: its identity and its own attribute dictionary. *)
Record t := { self_id : nat; self_dict : gmap string loc }.

(** [FSWatcher()]: the class declares no field (names with a leading
    underscore stay attributes of the class), so the instance dictionary
    starts empty. *)
Definition new (id : nat) : t := {| self_id := id; self_dict := ∅ |}.

(** [self.name]: the instance dictionary first, then the class. *)
Definition getattr (self : t) (name : string) : Py loc :=
  match self_dict self !! name with
  | Some l => mret l
  | None =>
      match class_dict !! name with
      | Some l => mret l
      | None => raise (AttributeError name)
      end
  end.

Definition start (self : t) : Py unit :=
  obs ← getattr self "_observer";
  watchdog.start obs.

Definition stop (self : t) : Py unit :=
  obs ← getattr self "_observer";
  watchdog.stop obs ;;
  obs ← getattr self "_observer";
  watchdog.join obs.

Definition run (self : t) : Py unit := mret tt.

(** The body of the [for callback in self._callbacks] loop of
    [run_async], over the remaining callbacks. *)
Fixpoint subscribe (self : t) (cbs : list FSCallback.t) : Py unit :=
  match cbs with
  | [] => mret tt
  | callback :: rest =>
      if iscoroutinefunction (FSCallback.callback_function callback)
      then
        obs ← getattr self "_observer";
        watchdog.schedule obs
          (FSAsyncEventHandler.__init__ callback
             FSAsyncEventHandler.default_loop)
          (FSCallback.event_path callback) true ;;
        subscribe self rest
      else
        raise (Exception
                 ("FSWatcher only accepts coroutine functions as of version "
                  +:+ VERSION))
  end.

Definition run_async (self : t) : Py unit :=
  cbs_ref ← getattr self "_callbacks";
  cbs ← deref_list cbs_ref;
  subscribe self cbs ;;
  start self ;;
  for_range 20 (asyncio.sleep 1) ;;
  stop self.

Definition watch (self : t) : Py unit :=
  lp ← getattr self "_loop";
  asyncio.run_until_complete lp (run_async self).

(** [self._callbacks.append(FSCallback(...)); return event_handler], the
    body shared by the five decorators. *)
Definition decorator (self : t) (event_type path_to_watch : string)
    (event_handler : Callable) : Py Callable :=
  cbs_ref ← getattr self "_callbacks";
  cbs ← deref_list cbs_ref;
  store cbs_ref
    (OList (cbs ++ [FSCallback.mk event_type path_to_watch event_handler])) ;;
  mret event_handler.

Definition on_any (self : t) (path_to_watch : string)
  : Callable → Py Callable :=
  decorator self EVENT_TYPE_ANY path_to_watch.

Definition on_moved (self : t) (path_to_watch : string)
  : Callable → Py Callable :=
  decorator self EVENT_TYPE_MOVED path_to_watch.

Definition on_created (self : t) (path_to_watch : string)
  : Callable → Py Callable :=
  decorator self EVENT_TYPE_CREATED path_to_watch.

Definition on_deleted (self : t) (path_to_watch : string)
  : Callable → Py Callable :=
  decorator self EVENT_TYPE_DELETED path_to_watch.

Definition on_modified (self : t) (path_to_watch : string)
  : Callable → Py Callable :=
  decorator self EVENT_TYPE_MODIFIED path_to_watch.
End FSWatcher.

(** The heap once the module has been imported: an open loop with nothing
    queued, [Observer()], and the empty list. *)
Definition module_init : World :=
  {| heap :=
       <[FSAsyncEventHandler.default_loop := OLoop {| closed := false; ready := [] |}]>
         (<[FSWatcher.observer_loc :=
              OObserver {| started := false; stopped_event := false;
                           terminated := false; handlers := [] |}]>
            (<[FSWatcher.callbacks_loc := OList []]> ∅));
     trace := [] |}.

(** ** Vocabulary of the properties *)

(** The five registration decorators and the kind each one stands for. *)
Inductive Registrar := OnAny | OnMoved | OnCreated | OnDeleted | OnModified.

Definition registrar_method (r : Registrar)
  : FSWatcher.t → string → Callable → Py Callable :=
  match r with
  | OnAny => FSWatcher.on_any
  | OnMoved => FSWatcher.on_moved
  | OnCreated => FSWatcher.on_created
  | OnDeleted => FSWatcher.on_deleted
  | OnModified => FSWatcher.on_modified
  end.

Definition registrar_kind (r : Registrar) : string :=
  match r with
  | OnAny => "any"
  | OnMoved => "moved"
  | OnCreated => "created"
  | OnDeleted => "deleted"
  | OnModified => "modified"
  end.

(** The adapter [run_async] builds for a registration, and the watch it is
    subscribed under. *)
Definition adapter (cb : FSCallback.t) : ObservedWatch * Handler.t :=
  ({| watch_path := FSCallback.event_path cb; watch_recursive := true |},
   FSAsyncEventHandler.__init__ cb FSAsyncEventHandler.default_loop).

Definition subscription (cb : FSCallback.t) : Effect :=
  ObsSchedule (snd (adapter cb)) (FSCallback.event_path cb) true.

Definition is_coroutine (cb : FSCallback.t) : Prop :=
  iscoroutinefunction (FSCallback.callback_function cb) = true.

Definition observer_of (σ : World) : option Observer :=
  match heap σ !! FSWatcher.observer_loc with
  | Some (OObserver o) => Some o
  | _ => None
  end.

Definition callbacks_of (σ : World) : option (list FSCallback.t) :=
  match heap σ !! FSWatcher.callbacks_loc with
  | Some (OList cbs) => Some cbs
  | _ => None
  end.

Definition loop_of (σ : World) (l : loc) : option EventLoop :=
  match heap σ !! l with
  | Some (OLoop lp) => Some lp
  | _ => None
  end.

(** The lifecycle the observer's flags stand for. *)
Inductive Lifecycle := Idle | Running | Stopped.

Definition lifecycle (o : Observer) : Lifecycle :=
  if negb (started o) then Idle
  else if terminated o then Stopped
  else Running.

(** [run_async] up to its first [await]: the subscriptions and the start. *)
Definition run_async_begin (self : FSWatcher.t) : Py unit :=
  cbs_ref ← FSWatcher.getattr self "_callbacks";
  cbs ← deref_list cbs_ref;
  FSWatcher.subscribe self cbs ;;
  FSWatcher.start self.

(** [loop.close()], by whoever owns the loop. *)
Definition close_loop (l : loc) : Py unit :=
  lp ← deref_loop l;
  store l (OLoop {| closed := true; ready := ready lp |}).

(** A path disappearing from the file system. *)
Definition unlink (path : string) : Py unit := λ σ,
  let paths := match heap σ !! watchdog.fs_loc with
               | Some (OMissing paths) => paths
               | _ => []
               end in
  store watchdog.fs_loc (OMissing (paths ++ [path])) σ.

(** What a program using the module, its watcher thread and the owner of
    the loop can do, one step at a time.  [OpRunAsyncBegin] and [OpSleep]
    expose the worlds in which [run_async] is suspended, where the watcher
    thread delivers. *)
Inductive Op :=
  | OpRegister (r : Registrar) (id : nat) (path : string) (f : Callable)
  | OpRunAsync (id : nat)
  | OpRunAsyncBegin (id : nat)
  | OpSleep
  | OpWatch (id : nat)
  | OpStart (id : nat)
  | OpStop (id : nat)
  | OpRun (id : nat)
  | OpDeliver (w : ObservedWatch) (ev : FileSystemEvent.t)
  | OpCloseLoop
  | OpUnlink (path : string).

Definition exec (op : Op) (σ : World) : World :=
  match op with
  | OpRegister r id path f => snd (registrar_method r (FSWatcher.new id) path f σ)
  | OpRunAsync id => snd (FSWatcher.run_async (FSWatcher.new id) σ)
  | OpRunAsyncBegin id => snd (run_async_begin (FSWatcher.new id) σ)
  | OpSleep => snd (asyncio.sleep 1 σ)
  | OpWatch id => snd (FSWatcher.watch (FSWatcher.new id) σ)
  | OpStart id => snd (FSWatcher.start (FSWatcher.new id) σ)
  | OpStop id => snd (FSWatcher.stop (FSWatcher.new id) σ)
  | OpRun id => snd (FSWatcher.run (FSWatcher.new id) σ)
  | OpDeliver w ev => snd (deliver FSWatcher.observer_loc w ev σ)
  | OpCloseLoop => snd (close_loop FSAsyncEventHandler.default_loop σ)
  | OpUnlink path => snd (unlink path σ)
  end.

Inductive reachable : World → Prop :=
  | reachable_init : reachable module_init
  | reachable_step σ op : reachable σ → reachable (exec op σ).

Definition run_ops (ops : list Op) (σ : World) : World :=
  foldl (λ σ op, exec op σ) σ ops.

(** Every handler in the observer's table is a coroutine function bound to
    the default loop, and the three class-level objects are in place. *)
Definition handlers_async (o : Observer) : Prop :=
  Forall (λ wh, iscoroutinefunction (Handler.callback_function (snd wh)) = true
                ∧ Handler.loop (snd wh) = FSAsyncEventHandler.default_loop)
         (handlers o).

Definition world_ok (σ : World) : Prop :=
  ∃ o cbs lp,
    heap σ !! FSWatcher.observer_loc = Some (OObserver o)
    ∧ heap σ !! FSWatcher.callbacks_loc = Some (OList cbs)
    ∧ heap σ !! FSAsyncEventHandler.default_loop = Some (OLoop lp)
    ∧ handlers_async o.

(** A computation that keeps [world_ok], however it ends. *)
Definition preserves {A} (m : Py A) : Prop :=
  ∀ σ, world_ok σ → world_ok (snd (m σ)).

(** The observer with further subscriptions appended. *)
Definition subscribed (o : Observer) (hs : list (ObservedWatch * Handler.t))
  : Observer :=
  {| started := started o;
     stopped_event := stopped_event o;
     terminated := terminated o;
     handlers := handlers o ++ hs |}.

(** The world with the observer object replaced and calls appended to the
    trace. *)
Definition with_observer (σ : World) (o : Observer) (t : list Effect) : World :=
  {| heap := <[FSWatcher.observer_loc := OObserver o]> (heap σ);
     trace := trace σ ++ t |}.

(** Concrete objects for the examples. *)
Definition watcher : FSWatcher.t := FSWatcher.new 0.
Definition say_hello : Callable := {| fn_id := 1; is_async_def := true |}.
Definition print_path : Callable := {| fn_id := 2; is_async_def := false |}.

Definition fresh_observer : Observer :=
  {| started := false; stopped_event := false; terminated := false;
     handlers := [] |}.

Definition not_coroutine_message : string :=
  "FSWatcher only accepts coroutine functions as of version 0.0.0".

(** One coroutine function registered, then a plain function. *)
Definition mixed_world : World :=
  run_ops [OpRegister OnCreated 0 "/tmp/watched" say_hello;
           OpRegister OnModified 0 "/tmp/other" print_path] module_init.

(** One coroutine function registered, nothing run yet. *)
Definition registered_world : World :=
  run_ops [OpRegister OnCreated 0 "/tmp/watched" say_hello] module_init.

(** [start()] called once. *)
Definition running_world : World := run_ops [OpStart 0] module_init.

(** [start()] then [stop()]. *)
Definition stopped_world : World := run_ops [OpStart 0; OpStop 0] module_init.

(** [run_async] suspended in its sleep, with one coroutine function
    subscribed. *)
Definition watching_world : World :=
  run_ops [OpRegister OnCreated 0 "/tmp/watched" say_hello;
           OpRunAsyncBegin 0] module_init.

(** The same, with the default loop closed beforehand. *)
Definition torn_down_world : World :=
  run_ops [OpRegister OnCreated 0 "/tmp/watched" say_hello;
           OpCloseLoop;
           OpRunAsyncBegin 0] module_init.

Definition watched : ObservedWatch :=
  {| watch_path := "/tmp/watched"; watch_recursive := true |}.

Definition created_registration : FSCallback.t :=
  FSCallback.mk "created" "/tmp/watched" say_hello.

Definition created_handler : Handler.t := snd (adapter created_registration).

Definition file_created : FileSystemEvent.t :=
  watchdog_event Created "/tmp/watched/file.txt" false.

(** *** Several calls in a row *)

(** A registration request: which decorator, through which instance, for
    which path, decorating which function. *)
Record Request :=
  { by_method : Registrar; through : nat; for_path : string;
    decorated : Callable }.

Definition registration_of (q : Request) : FSCallback.t :=
  FSCallback.mk (registrar_kind (by_method q)) (for_path q) (decorated q).

(** The decorators applied one after the other, each result discarded. *)
Fixpoint register_all (qs : list Request) : Py unit :=
  match qs with
  | [] => mret tt
  | q :: rest =>
      registrar_method (by_method q) (FSWatcher.new (through q))
        (for_path q) (decorated q) ;;
      register_all rest
  end.

(** One thread handing a run of events to the same adapter. *)
Fixpoint dispatch_each (h : Handler.t) (evs : list FileSystemEvent.t)
  : Py unit :=
  match evs with
  | [] => mret tt
  | ev :: rest => FSAsyncEventHandler.dispatch h ev ;; dispatch_each h rest
  end.

(** The decorator named after an observer event kind. *)
Definition kind_registrar (k : WatchdogKind) : Registrar :=
  match k with
  | Moved => OnMoved
  | Deleted => OnDeleted
  | Created => OnCreated
  | Modified => OnModified
  end.

Global Instance Registrar_eq_dec : EqDecision Registrar.
Proof. solve_decision. Defined.

(** The comparison [dispatch] makes, and the request it leaves on the loop
    for a coroutine function. *)
Definition triggers (h : Handler.t) (ev : FileSystemEvent.t) : bool :=
  String.eqb (FileSystemEvent.event_type ev) (Handler.event_type_trigger h).

Definition coroutine_for (h : Handler.t) (ev : FileSystemEvent.t) : PyVal :=
  VCoroutine (fn_id (Handler.callback_function h)) ev.

(** The world with the loop at [l] holding further requests, each logged. *)
Definition with_requests (σ : World) (l : loc) (lp : EventLoop)
    (args : list PyVal) : World :=
  {| heap := <[l := OLoop {| closed := closed lp;
                             ready := ready lp ++ map CreateTask args |}]>
               (heap σ);
     trace := trace σ ++ map (CallSoon l) args |}.

(** *** Footprints and invariants *)

(** A computation that leaves every object but the one at [l0] alone. *)
Definition frames (l0 : loc) {A} (m : Py A) : Prop :=
  ∀ σ l, l ≠ l0 → heap (snd (m σ)) !! l = heap σ !! l.

(** A computation that keeps [I], however it ends. *)
Definition keeps (I : World → Prop) {A} (m : Py A) : Prop :=
  ∀ σ, I σ → I (snd (m σ)).

(** A subscription that is the adapter of a registered coroutine function. *)
Definition registered_from (cbs : list FSCallback.t)
    (wh : ObservedWatch * Handler.t) : Prop :=
  ∃ cb, cb ∈ cbs ∧ is_coroutine cb ∧ wh = adapter cb.

Definition linked (σ : World) : Prop :=
  ∃ o cbs,
    heap σ !! FSWatcher.observer_loc = Some (OObserver o)
    ∧ heap σ !! FSWatcher.callbacks_loc = Some (OList cbs)
    ∧ Forall (registered_from cbs) (handlers o).

(** What an operation does to the callback list [cbs]. *)
Definition callbacks_after (op : Op) (cbs : list FSCallback.t)
  : list FSCallback.t :=
  match op with
  | OpRegister r id path f => cbs ++ [FSCallback.mk (registrar_kind r) path f]
  | _ => cbs
  end.

(** One coroutine function registered for a path that has disappeared. *)
Definition unwatched_world : World :=
  run_ops [OpRegister OnCreated 0 "/tmp/watched" say_hello;
           OpUnlink "/tmp/watched"] module_init.

(** [run_async] run to its end once, with one coroutine function. *)
Definition finished_world : World :=
  run_ops [OpRegister OnCreated 0 "/tmp/watched" say_hello;
           OpRunAsync 0] module_init.

(** * Properties *)

(** ** Running the primitives *)

Section Primitives.
Context {A B : Type}.

Lemma bind_returned (m : Py A) (f : A → Py B) σ a σ' :
  m σ = (Returned a, σ') → (m ≫= f) σ = f a σ'.
Proof. intros H. unfold mbind, Py_bind. by rewrite H. Qed.

Lemma bind_raised (m : Py A) (f : A → Py B) σ e σ' :
  m σ = (Raised e, σ') → (m ≫= f) σ = (Raised e, σ').
Proof. intros H. unfold mbind, Py_bind. by rewrite H. Qed.

Lemma bind_blocked (m : Py A) (f : A → Py B) σ σ' :
  m σ = (Blocked, σ') → (m ≫= f) σ = (Blocked, σ').
Proof. intros H. unfold mbind, Py_bind. by rewrite H. Qed.
End Primitives.

Lemma getattr_observer id σ :
  FSWatcher.getattr (FSWatcher.new id) "_observer" σ
  = (Returned FSWatcher.observer_loc, σ).
Proof. reflexivity. Qed.

Lemma getattr_callbacks id σ :
  FSWatcher.getattr (FSWatcher.new id) "_callbacks" σ
  = (Returned FSWatcher.callbacks_loc, σ).
Proof. reflexivity. Qed.

Lemma getattr_loop id σ :
  FSWatcher.getattr (FSWatcher.new id) "_loop" σ
  = (Returned FSAsyncEventHandler.default_loop, σ).
Proof. reflexivity. Qed.

Lemma deref_observer_at σ l o :
  heap σ !! l = Some (OObserver o) → deref_observer l σ = (Returned o, σ).
Proof. intros H. unfold deref_observer. by rewrite H. Qed.

Lemma deref_list_at σ l cbs :
  heap σ !! l = Some (OList cbs) → deref_list l σ = (Returned cbs, σ).
Proof. intros H. unfold deref_list. by rewrite H. Qed.

Lemma deref_loop_at σ l lp :
  heap σ !! l = Some (OLoop lp) → deref_loop l σ = (Returned lp, σ).
Proof. intros H. unfold deref_loop. by rewrite H. Qed.

Ltac run_py :=
  unfold mbind, Py_bind, mret, Py_ret, raise, block, log, store,
    deref_observer, deref_list, deref_loop; simpl.

Lemma schedule_at σ l o h path recursive :
  heap σ !! l = Some (OObserver o) →
  watchdog.schedule l h path recursive σ
  = (Returned {| watch_path := path; watch_recursive := recursive |},
     {| heap := <[l := OObserver
                   {| started := started o;
                      stopped_event := stopped_event o;
                      terminated := terminated o;
                      handlers := handlers o ++
                        [({| watch_path := path; watch_recursive := recursive |}, h)] |}]>
                (heap σ);
        trace := trace σ ++ [ObsSchedule h path recursive] |}).
Proof. intros H. unfold watchdog.schedule. run_py. by rewrite H. Qed.

Lemma start_at σ l o :
  heap σ !! l = Some (OObserver o) →
  watchdog.start l σ
  = let σ1 := {| heap := heap σ; trace := trace σ ++ [ObsStart] |} in
    match watchdog.first_missing σ (handlers o) with
    | Some path => (Raised (FileNotFoundError path), σ1)
    | None =>
        if started o
        then (Raised (RuntimeError "threads can only be started once"), σ1)
        else (Returned tt,
              {| heap := <[l := OObserver
                            {| started := true;
                               stopped_event := stopped_event o;
                               terminated := terminated o;
                               handlers := handlers o |}]> (heap σ);
                 trace := trace σ ++ [ObsStart] |})
    end.
Proof.
  intros H. unfold watchdog.start. run_py. rewrite H.
  unfold watchdog.first_missing, watchdog.path_missing. simpl.
  destruct (head _); [done|]. by destruct (started o).
Qed.

Lemma stop_at σ l o :
  heap σ !! l = Some (OObserver o) →
  watchdog.stop l σ
  = (Returned tt,
     {| heap := <[l := OObserver
                   {| started := started o;
                      stopped_event := true;
                      terminated := terminated o;
                      handlers := [] |}]> (heap σ);
        trace := trace σ ++ [ObsStop] |}).
Proof. intros H. unfold watchdog.stop. run_py. by rewrite H. Qed.

Lemma join_at σ l o :
  heap σ !! l = Some (OObserver o) →
  watchdog.join l σ
  = let σ1 := {| heap := heap σ; trace := trace σ ++ [ObsJoin] |} in
    if negb (started o)
    then (Raised (RuntimeError "cannot join thread before it is started"), σ1)
    else if terminated o then (Returned tt, σ1)
    else if stopped_event o
    then (Returned tt,
          {| heap := <[l := OObserver
                        {| started := started o;
                           stopped_event := stopped_event o;
                           terminated := true;
                           handlers := handlers o |}]> (heap σ);
             trace := trace σ ++ [ObsJoin] |})
    else (Blocked, σ1).
Proof.
  intros H. unfold watchdog.join. run_py. rewrite H.
  by destruct (started o), (terminated o), (stopped_event o).
Qed.

Lemma call_soon_at σ l lp arg :
  heap σ !! l = Some (OLoop lp) →
  asyncio.call_soon_threadsafe l arg σ
  = if closed lp
    then (Raised (RuntimeError "Event loop is closed"),
          {| heap := heap σ; trace := trace σ ++ [CallSoon l arg] |})
    else (Returned tt,
          {| heap := <[l := OLoop {| closed := closed lp;
                                     ready := ready lp ++ [CreateTask arg] |}]>
                       (heap σ);
             trace := trace σ ++ [CallSoon l arg] |}).
Proof.
  intros H. unfold asyncio.call_soon_threadsafe. run_py. rewrite H.
  by destruct (closed lp).
Qed.

(** The filter of [dispatch] is the comparison of the two type strings. *)
Lemma dispatch_filtered h ev σ :
  FileSystemEvent.event_type ev ≠ Handler.event_type_trigger h →
  FSAsyncEventHandler.dispatch h ev σ = (Returned tt, σ).
Proof.
  intros Hne. unfold FSAsyncEventHandler.dispatch.
  apply String.eqb_neq in Hne. by rewrite Hne.
Qed.

Lemma dispatch_coroutine h ev σ lp :
  iscoroutinefunction (Handler.callback_function h) = true →
  FileSystemEvent.event_type ev = Handler.event_type_trigger h →
  heap σ !! Handler.loop h = Some (OLoop lp) →
  FSAsyncEventHandler.dispatch h ev σ
  = let coro := VCoroutine (fn_id (Handler.callback_function h)) ev in
    let t := trace σ ++ [CallSoon (Handler.loop h) coro] in
    if closed lp
    then (Raised (RuntimeError "Event loop is closed"),
          {| heap := heap σ; trace := t |})
    else (Returned tt,
          {| heap := <[Handler.loop h :=
                        OLoop {| closed := closed lp;
                                 ready := ready lp ++ [CreateTask coro] |}]>
                       (heap σ);
             trace := t |}).
Proof.
  intros Hco Hty Hlp. unfold FSAsyncEventHandler.dispatch.
  apply String.eqb_eq in Hty. rewrite Hty.
  unfold call_callable. rewrite Hco.
  erewrite bind_returned; [|reflexivity].
  by apply call_soon_at.
Qed.

Lemma dispatch_plain h ev σ lp :
  iscoroutinefunction (Handler.callback_function h) = false →
  FileSystemEvent.event_type ev = Handler.event_type_trigger h →
  heap σ !! Handler.loop h = Some (OLoop lp) →
  FSAsyncEventHandler.dispatch h ev σ
  = let t := trace σ ++ [RunBody (fn_id (Handler.callback_function h)) ev;
                         CallSoon (Handler.loop h) VNone] in
    if closed lp
    then (Raised (RuntimeError "Event loop is closed"),
          {| heap := heap σ; trace := t |})
    else (Returned tt,
          {| heap := <[Handler.loop h :=
                        OLoop {| closed := closed lp;
                                 ready := ready lp ++ [CreateTask VNone] |}]>
                       (heap σ);
             trace := t |}).
Proof.
  intros Hco Hty Hlp. unfold FSAsyncEventHandler.dispatch.
  apply String.eqb_eq in Hty. rewrite Hty.
  unfold call_callable. rewrite Hco.
  erewrite bind_returned; [|run_py; reflexivity].
  erewrite call_soon_at by exact Hlp. simpl.
  rewrite <- app_assoc. by destruct (closed lp).
Qed.

(** ** The methods of FSWatcher on an instance made by the constructor *)

Lemma start_new id σ :
  FSWatcher.start (FSWatcher.new id) σ = watchdog.start FSWatcher.observer_loc σ.
Proof. reflexivity. Qed.

Lemma stop_new id σ :
  FSWatcher.stop (FSWatcher.new id) σ
  = (watchdog.stop FSWatcher.observer_loc ;;
     watchdog.join FSWatcher.observer_loc) σ.
Proof. reflexivity. Qed.

Lemma world_eta σ : {| heap := heap σ; trace := trace σ |} = σ.
Proof. by destruct σ. Qed.

Lemma subscribed_nil o : subscribed o [] = o.
Proof. destruct o. unfold subscribed. simpl. by rewrite app_nil_r. Qed.

Lemma subscribed_app o hs1 hs2 :
  subscribed (subscribed o hs1) hs2 = subscribed o (hs1 ++ hs2).
Proof. unfold subscribed. simpl. by rewrite app_assoc. Qed.

Lemma with_observer_id σ o :
  heap σ !! FSWatcher.observer_loc = Some (OObserver o) →
  with_observer σ o [] = σ.
Proof.
  intros H. unfold with_observer. rewrite insert_id by done.
  rewrite app_nil_r. apply world_eta.
Qed.

Lemma with_observer_twice σ o1 t1 o2 t2 :
  with_observer (with_observer σ o1 t1) o2 t2 = with_observer σ o2 (t1 ++ t2).
Proof.
  unfold with_observer. simpl. rewrite insert_insert_eq.
  by rewrite app_assoc.
Qed.

Lemma observer_of_with σ o t : observer_of (with_observer σ o t) = Some o.
Proof. unfold observer_of, with_observer. simpl. by rewrite lookup_insert_eq. Qed.

Lemma heap_with_observer σ o t :
  heap (with_observer σ o t) !! FSWatcher.observer_loc = Some (OObserver o).
Proof. unfold with_observer. simpl. by rewrite lookup_insert_eq. Qed.

Lemma heap_with_observer_ne σ o t l :
  l ≠ FSWatcher.observer_loc →
  heap (with_observer σ o t) !! l = heap σ !! l.
Proof. intros H. unfold with_observer. simpl. by rewrite lookup_insert_ne. Qed.

(** The loop of [run_async] subscribes the coroutine functions it meets, in
    order, until the list ends or a callback is not one. *)
Lemma subscribe_prefix id pre rest σ o :
  heap σ !! FSWatcher.observer_loc = Some (OObserver o) →
  Forall is_coroutine pre →
  FSWatcher.subscribe (FSWatcher.new id) (pre ++ rest) σ
  = FSWatcher.subscribe (FSWatcher.new id) rest
      (with_observer σ (subscribed o (map adapter pre)) (map subscription pre)).
Proof.
  intros Ho Hpre. revert σ o Ho.
  induction Hpre as [|cb pre Hcb _ IH]; intros σ o Ho.
  - simpl. rewrite subscribed_nil. by rewrite with_observer_id.
  - simpl. rewrite Hcb.
    erewrite bind_returned; [|apply getattr_observer].
    erewrite bind_returned; [|by apply schedule_at].
    erewrite IH; [|simpl; by rewrite lookup_insert_eq].
    f_equal.
    change {| heap := ?h; trace := ?t |}
      with (with_observer σ (subscribed o [adapter cb]) [subscription cb]) at 1.
    rewrite with_observer_twice. unfold subscribed. simpl.
    by rewrite <- app_assoc.
Qed.

Lemma for_range_sleep n k σ :
  for_range n (asyncio.sleep k) σ
  = (Returned tt, {| heap := heap σ; trace := trace σ ++ replicate n (Sleep k) |}).
Proof.
  revert σ. induction n as [|n IH]; intros σ.
  - simpl. rewrite app_nil_r. by rewrite world_eta.
  - simpl. erewrite bind_returned; [|reflexivity].
    rewrite IH. simpl. by rewrite <- app_assoc.
Qed.

Lemma run_async_phases id σ :
  FSWatcher.run_async (FSWatcher.new id) σ
  = (run_async_begin (FSWatcher.new id) ;;
     for_range 20 (asyncio.sleep 1) ;;
     FSWatcher.stop (FSWatcher.new id)) σ.
Proof.
  unfold FSWatcher.run_async, run_async_begin.
  unfold mbind, Py_bind.
  destruct (FSWatcher.getattr _ _ σ) as [[l| |] σ1]; try done.
  destruct (deref_list l σ1) as [[cbs| |] σ2]; try done.
  destruct (FSWatcher.subscribe _ cbs σ2) as [[[]| |] σ3]; try done.
Qed.

Lemma watch_runs_run_async id σ lp :
  heap σ !! FSAsyncEventHandler.default_loop = Some (OLoop lp) →
  FSWatcher.watch (FSWatcher.new id) σ
  = if closed lp
    then (Raised (RuntimeError "Event loop is closed"), σ)
    else FSWatcher.run_async (FSWatcher.new id) σ.
Proof.
  intros H. unfold FSWatcher.watch, asyncio.run_until_complete.
  erewrite bind_returned; [|apply getattr_loop].
  erewrite bind_returned; [|by apply deref_loop_at].
  by destruct (closed lp).
Qed.

(** ** Registration *)

Lemma decorator_at id kind path f σ cbs :
  heap σ !! FSWatcher.callbacks_loc = Some (OList cbs) →
  FSWatcher.decorator (FSWatcher.new id) kind path f σ
  = (Returned f,
     {| heap := <[FSWatcher.callbacks_loc :=
                   OList (cbs ++ [FSCallback.mk kind path f])]> (heap σ);
        trace := trace σ |}).
Proof.
  intros H. unfold FSWatcher.decorator.
  erewrite bind_returned; [|apply getattr_callbacks].
  erewrite bind_returned; [|by apply deref_list_at].
  reflexivity.
Qed.

(** C6. Each of the five decorators appends exactly one registration with
    its kind, the path and the handler given to the callback list, and
    returns that very handler; the handler is not inspected, so a plain
    function is accepted as readily as a coroutine function. *)
Theorem decorator_appends_one_registration
    (r : Registrar) (id : nat) (path : string) (f : Callable)
    (σ : World) (cbs : list FSCallback.t) :
  callbacks_of σ = Some cbs →
  registrar_method r (FSWatcher.new id) path f σ
  = (Returned f,
     {| heap := <[FSWatcher.callbacks_loc :=
                   OList (cbs ++ [FSCallback.mk (registrar_kind r) path f])]>
                  (heap σ);
        trace := trace σ |}).
Proof.
  unfold callbacks_of. intros H.
  destruct (heap σ !! FSWatcher.callbacks_loc) as [[l| | |]|] eqn:Hl;
    try discriminate.
  injection H as ->.
  destruct r; by apply decorator_at.
Qed.

Lemma decorator_appends_one_registration_witness :
  registrar_method OnModified watcher "/tmp/other" print_path registered_world
  = (Returned print_path, mixed_world).
Proof.
  exact (decorator_appends_one_registration OnModified 0 "/tmp/other"
           print_path registered_world
           [FSCallback.mk "created" "/tmp/watched" say_hello] eq_refl).
Defined.

(** ** Class-level state *)





(** C10. [run] returns [None] and leaves the world as it found it. *)
Theorem run_is_a_no_op (self : FSWatcher.t) (σ : World) :
  FSWatcher.run self σ = (Returned tt, σ).
Proof. reflexivity. Qed.

(** ** Starting a session *)

Lemma run_async_begin_prefix id σ o pre rest :
  heap σ !! FSWatcher.observer_loc = Some (OObserver o) →
  heap σ !! FSWatcher.callbacks_loc = Some (OList (pre ++ rest)) →
  Forall is_coroutine pre →
  run_async_begin (FSWatcher.new id) σ
  = (FSWatcher.subscribe (FSWatcher.new id) rest ;;
     FSWatcher.start (FSWatcher.new id))
      (with_observer σ (subscribed o (map adapter pre)) (map subscription pre)).
Proof.
  intros Ho Hcbs Hpre. unfold run_async_begin.
  erewrite bind_returned; [|apply getattr_callbacks].
  erewrite bind_returned; [|by apply deref_list_at].
  unfold mbind, Py_bind.
  by erewrite subscribe_prefix by eassumption.
Qed.

(** A world in which [run_async] raised because of a handler that is not a
    coroutine function already holds the subscription of the coroutine
    function registered before it. *)
Lemma run_async_raises_after_subscribing :
  callbacks_of mixed_world
  = Some [FSCallback.mk "created" "/tmp/watched" say_hello;
          FSCallback.mk "modified" "/tmp/other" print_path]
  ∧ handlers <$> observer_of mixed_world = Some []
  ∧ fst (FSWatcher.run_async watcher mixed_world)
    = Raised (Exception not_coroutine_message)
  ∧ handlers <$> observer_of (snd (FSWatcher.run_async watcher mixed_world))
    = Some [adapter (FSCallback.mk "created" "/tmp/watched" say_hello)].
Proof. repeat split; vm_compute; reflexivity. Qed.

(** C2, as the code has it. With a handler that is not a coroutine function
    in the callback list, [run_async] raises the configuration error and
    never starts the observer; the registrations that precede the first
    such handler have been subscribed by then, in order, and none from that
    handler on. *)
Theorem run_async_rejects_first_plain_handler
    (id : nat) (σ : World) (o : Observer)
    (pre : list FSCallback.t) (cb : FSCallback.t) (post : list FSCallback.t) :
  observer_of σ = Some o →
  callbacks_of σ = Some (pre ++ cb :: post) →
  Forall is_coroutine pre →
  iscoroutinefunction (FSCallback.callback_function cb) = false →
  FSWatcher.run_async (FSWatcher.new id) σ
  = (Raised (Exception not_coroutine_message),
     with_observer σ (subscribed o (map adapter pre)) (map subscription pre)).
Proof.
  unfold observer_of, callbacks_of. intros Ho Hcbs Hpre Hcb.
  destruct (heap σ !! FSWatcher.observer_loc) as [[| o'| |]|] eqn:Ho';
    try discriminate.
  destruct (heap σ !! FSWatcher.callbacks_loc) as [[l| | |]|] eqn:Hl;
    try discriminate.
  injection Ho as ->. injection Hcbs as ->.
  rewrite run_async_phases.
  erewrite bind_raised; [reflexivity|].
  erewrite run_async_begin_prefix by eassumption.
  erewrite bind_raised; [reflexivity|].
  simpl. by rewrite Hcb.
Qed.

Lemma run_async_rejects_first_plain_handler_witness :
  FSWatcher.run_async (FSWatcher.new 0) mixed_world
  = (Raised (Exception not_coroutine_message),
     with_observer mixed_world
       (subscribed fresh_observer
          (map adapter [FSCallback.mk "created" "/tmp/watched" say_hello]))
       (map subscription [FSCallback.mk "created" "/tmp/watched" say_hello])).
Proof.
  apply (run_async_rejects_first_plain_handler 0 mixed_world fresh_observer
           [FSCallback.mk "created" "/tmp/watched" say_hello]
           (FSCallback.mk "modified" "/tmp/other" print_path) []).
  - reflexivity.
  - reflexivity.
  - repeat constructor.
  - reflexivity.
Defined.

Lemma first_missing_with_observer σ o t hs :
  watchdog.first_missing (with_observer σ o t) hs = watchdog.first_missing σ hs.
Proof.
  unfold watchdog.first_missing, watchdog.path_missing, with_observer. simpl.
  by rewrite lookup_insert_ne.
Qed.

Lemma run_async_begin_at id σ o cbs :
  heap σ !! FSWatcher.observer_loc = Some (OObserver o) →
  heap σ !! FSWatcher.callbacks_loc = Some (OList cbs) →
  Forall is_coroutine cbs →
  run_async_begin (FSWatcher.new id) σ
  = let o' := subscribed o (map adapter cbs) in
    let t := map subscription cbs ++ [ObsStart] in
    match watchdog.first_missing σ (handlers o') with
    | Some path => (Raised (FileNotFoundError path), with_observer σ o' t)
    | None =>
        if started o
        then (Raised (RuntimeError "threads can only be started once"),
              with_observer σ o' t)
        else (Returned tt,
              with_observer σ
                {| started := true; stopped_event := stopped_event o;
                   terminated := terminated o;
                   handlers := handlers o ++ map adapter cbs |} t)
    end.
Proof.
  intros Ho Hl Hall. rewrite <- (app_nil_r cbs) in Hl.
  erewrite run_async_begin_prefix by eassumption.
  erewrite bind_returned; [|reflexivity].
  rewrite start_new. erewrite start_at by apply heap_with_observer.
  rewrite first_missing_with_observer. simpl.
  unfold with_observer. simpl. rewrite <- !app_assoc.
  destruct (watchdog.first_missing _ _); [done|].
  destruct (started o); [done|]. by rewrite insert_insert_eq.
Qed.

(** [run_async] with coroutine functions only raises on a session that
    has been run before, and on an idle session one of whose paths is not
    there. *)
Lemma run_async_wants_an_unused_session_and_its_paths :
  callbacks_of finished_world = Some [created_registration]
  ∧ iscoroutinefunction (FSCallback.callback_function created_registration)
    = true
  ∧ fst (FSWatcher.run_async watcher finished_world)
    = Raised (RuntimeError "threads can only be started once")
  ∧ callbacks_of unwatched_world = Some [created_registration]
  ∧ lifecycle <$> observer_of unwatched_world = Some Idle
  ∧ fst (FSWatcher.run_async watcher unwatched_world)
    = Raised (FileNotFoundError "/tmp/watched").
Proof. repeat split; vm_compute; reflexivity. Qed.

(** C8, as the code has it. On an idle session (an observer that was never
    started) whose handlers are all coroutine functions and whose
    subscribed paths are there, [run_async] subscribes one adapter per
    registration, each for the registration's path and recursively, in
    registration order, and starts the observer, which then holds these
    subscriptions; it sleeps one second twenty times; then it signals the
    observer to stop, which drops the subscriptions, and joins it. *)
Theorem run_async_subscribes_starts_sleeps_stops
    (id : nat) (σ : World) (o : Observer) (cbs : list FSCallback.t) :
  observer_of σ = Some o →
  callbacks_of σ = Some cbs →
  Forall is_coroutine cbs →
  lifecycle o = Idle →
  watchdog.first_missing σ (handlers o ++ map adapter cbs) = None →
  run_async_begin (FSWatcher.new id) σ
  = (Returned tt,
     with_observer σ
       {| started := true; stopped_event := stopped_event o;
          terminated := terminated o;
          handlers := handlers o ++ map adapter cbs |}
       (map subscription cbs ++ [ObsStart]))
  ∧ FSWatcher.run_async (FSWatcher.new id) σ
    = (Returned tt,
       with_observer σ
         {| started := true; stopped_event := true; terminated := true;
            handlers := [] |}
         (map subscription cbs ++ [ObsStart] ++ replicate 20 (Sleep 1)
            ++ [ObsStop; ObsJoin])).
Proof.
  unfold observer_of, callbacks_of, lifecycle.
  intros Ho Hcbs Hall Hidle Hpaths.
  destruct (heap σ !! FSWatcher.observer_loc) as [[| o'| |]|] eqn:Ho';
    try discriminate.
  destruct (heap σ !! FSWatcher.callbacks_loc) as [[l| | |]|] eqn:Hl;
    try discriminate.
  injection Ho as ->. injection Hcbs as ->.
  destruct (started o) eqn:Hst; [by destruct (terminated o)|clear Hidle].
  assert (run_async_begin (FSWatcher.new id) σ
          = (Returned tt,
             with_observer σ
               {| started := true; stopped_event := stopped_event o;
                  terminated := terminated o;
                  handlers := handlers o ++ map adapter cbs |}
               (map subscription cbs ++ [ObsStart]))) as Hbegin.
  { rewrite (run_async_begin_at id σ o cbs Ho' Hl Hall). simpl.
    by rewrite Hpaths, Hst. }
  split; [exact Hbegin|].
  rewrite run_async_phases.
  erewrite bind_returned; [|exact Hbegin].
  erewrite bind_returned; [|apply for_range_sleep].
  rewrite stop_new.
  erewrite bind_returned; cycle 1.
  { apply stop_at. simpl. by rewrite lookup_insert_eq. }
  erewrite join_at; cycle 1.
  { simpl. by rewrite lookup_insert_eq. }
  simpl. unfold with_observer. simpl.
  rewrite !insert_insert_eq. rewrite <- !app_assoc. simpl.
  by destruct (terminated o).
Qed.

Lemma run_async_subscribes_starts_sleeps_stops_witness :
  run_async_begin (FSWatcher.new 0) registered_world
  = (Returned tt, watching_world)
  ∧ FSWatcher.run_async (FSWatcher.new 0) registered_world
    = (Returned tt,
       with_observer registered_world
         {| started := true; stopped_event := true; terminated := true;
            handlers := [] |}
         ([subscription created_registration]
            ++ [ObsStart] ++ replicate 20 (Sleep 1) ++ [ObsStop; ObsJoin])).
Proof.
  apply (run_async_subscribes_starts_sleeps_stops 0 registered_world
           fresh_observer [created_registration]).
  - reflexivity.
  - reflexivity.
  - repeat constructor.
  - reflexivity.
  - reflexivity.
Defined.

(** ** Stopping a session *)

Lemma stop_at_observer id σ o :
  heap σ !! FSWatcher.observer_loc = Some (OObserver o) →
  FSWatcher.stop (FSWatcher.new id) σ
  = if negb (started o)
    then (Raised (RuntimeError "cannot join thread before it is started"),
          with_observer σ
            {| started := started o; stopped_event := true;
               terminated := terminated o; handlers := [] |}
            [ObsStop; ObsJoin])
    else (Returned tt,
          with_observer σ
            {| started := started o; stopped_event := true;
               terminated := true; handlers := [] |}
            [ObsStop; ObsJoin]).
Proof.
  intros Ho. rewrite stop_new.
  erewrite bind_returned; [|by apply stop_at].
  erewrite join_at; [|simpl; by rewrite lookup_insert_eq].
  unfold with_observer. simpl. rewrite <- !app_assoc. simpl.
  destruct (started o), (terminated o); simpl;
    by rewrite ?insert_insert_eq.
Qed.

Lemma deliver_after_join σ o w ev :
  heap σ !! FSWatcher.observer_loc = Some (OObserver o) →
  watchdog.can_deliver o = false →
  deliver FSWatcher.observer_loc w ev σ = (Returned tt, σ).
Proof.
  intros Ho Hno. unfold deliver.
  rewrite (deref_observer_at _ _ _ Ho). by rewrite Hno.
Qed.

(** C7. On a running session [stop] first signals the observer to stop,
    which also drops its subscriptions, and then joins its thread, in that
    order, and returns; from the world it returns in, the observer thread
    hands no notification to any handler: nothing is filtered and nothing
    is scheduled. *)
Theorem stop_signals_then_joins
    (id : nat) (σ : World) (o : Observer) :
  observer_of σ = Some o →
  lifecycle o = Running →
  let σ' := with_observer σ
              {| started := true; stopped_event := true; terminated := true;
                 handlers := [] |}
              [ObsStop; ObsJoin] in
  FSWatcher.stop (FSWatcher.new id) σ = (Returned tt, σ')
  ∧ ∀ w ev, deliver FSWatcher.observer_loc w ev σ' = (Returned tt, σ').
Proof.
  intros Ho Hrun σ'. subst σ'. unfold observer_of, lifecycle in *.
  destruct (heap σ !! FSWatcher.observer_loc) as [[| o'| |]|] eqn:Ho';
    try discriminate.
  injection Ho as ->.
  destruct (started o) eqn:Hst; [|discriminate].
  split.
  - rewrite (stop_at_observer _ _ _ Ho'). by rewrite Hst.
  - intros w ev. eapply deliver_after_join; [apply heap_with_observer|done].
Qed.

Lemma stop_signals_then_joins_witness :
  FSWatcher.stop (FSWatcher.new 0) watching_world
  = (Returned tt,
     with_observer watching_world
       {| started := true; stopped_event := true; terminated := true;
          handlers := [] |}
       [ObsStop; ObsJoin]).
Proof.
  exact (proj1 (stop_signals_then_joins 0 watching_world
                  {| started := true; stopped_event := false;
                     terminated := false;
                     handlers := [adapter (FSCallback.mk "created"
                                             "/tmp/watched" say_hello)] |}
                  eq_refl eq_refl)).
Defined.

(** ** Lifecycle errors *)

(** [stop] on a session that was started and stopped returns normally, and
    [stop] on a session that was never started raises only after it has set
    the observer's stop signal. *)
Lemma stop_outside_running_is_not_refused :
  lifecycle <$> observer_of stopped_world = Some Stopped
  ∧ FSWatcher.stop watcher stopped_world
    = (Returned tt,
       {| heap := heap stopped_world;
          trace := trace stopped_world ++ [ObsStop; ObsJoin] |})
  ∧ lifecycle <$> observer_of module_init = Some Idle
  ∧ fst (FSWatcher.stop watcher module_init)
    = Raised (RuntimeError "cannot join thread before it is started")
  ∧ stopped_event <$> observer_of module_init = Some false
  ∧ stopped_event <$> observer_of (snd (FSWatcher.stop watcher module_init))
    = Some true.
Proof. repeat split; vm_compute; reflexivity. Qed.

(** C4, as the code has it. FSWatcher keeps no lifecycle state and checks
    none: [start] and [stop] go straight to the observer. A [start] on a
    session that is not idle fails, with the thread's [RuntimeError] when
    the subscribed paths are there; a [stop] on an idle session fails with
    the [RuntimeError] of [join], after the stop signal has been set on the
    observer and its subscriptions dropped; a [stop] on a stopped session
    returns normally. *)
Theorem lifecycle_errors_are_the_threads
    (id : nat) (σ : World) (o : Observer) :
  observer_of σ = Some o →
  (lifecycle o ≠ Idle →
   ∃ e, fst (FSWatcher.start (FSWatcher.new id) σ) = Raised e
     ∧ (watchdog.first_missing σ (handlers o) = None →
        e = RuntimeError "threads can only be started once"))
  ∧ (lifecycle o = Idle →
     FSWatcher.stop (FSWatcher.new id) σ
     = (Raised (RuntimeError "cannot join thread before it is started"),
        with_observer σ
          {| started := false; stopped_event := true;
             terminated := terminated o; handlers := [] |}
          [ObsStop; ObsJoin]))
  ∧ (lifecycle o = Stopped →
     fst (FSWatcher.stop (FSWatcher.new id) σ) = Returned tt).
Proof.
  unfold observer_of, lifecycle. intros Ho.
  destruct (heap σ !! FSWatcher.observer_loc) as [[| o'| |]|] eqn:Ho';
    try discriminate.
  injection Ho as ->.
  rewrite start_new, (start_at _ _ _ Ho'), (stop_at_observer _ _ _ Ho').
  destruct (started o) eqn:Hst; simpl; (split; [|split]); try done.
  - intros _. destruct (watchdog.first_missing σ (handlers o)) as [p|].
    + by exists (FileNotFoundError p).
    + by eexists.
  - intros Hstopped. by destruct (terminated o).
Qed.

Lemma lifecycle_errors_are_the_threads_witness :
  fst (FSWatcher.start (FSWatcher.new 0) running_world)
  = Raised (RuntimeError "threads can only be started once")
  ∧ fst (FSWatcher.stop (FSWatcher.new 0) module_init)
    = Raised (RuntimeError "cannot join thread before it is started")
  ∧ fst (FSWatcher.stop (FSWatcher.new 0) stopped_world) = Returned tt.
Proof.
  split; [|split].
  - destruct (proj1 (lifecycle_errors_are_the_threads 0 running_world
                       {| started := true; stopped_event := false;
                          terminated := false; handlers := [] |} eq_refl))
      as (e & He & Hwhich); [discriminate|].
    rewrite He. f_equal. by apply Hwhich.
  - rewrite (proj1 (proj2 (lifecycle_errors_are_the_threads 0 module_init
                             fresh_observer eq_refl)) eq_refl).
    reflexivity.
  - apply (lifecycle_errors_are_the_threads 0 stopped_world
             {| started := true; stopped_event := true;
                terminated := true; handlers := [] |} eq_refl).
    reflexivity.
Defined.

(** ** The filter of dispatch *)

(** C1. A registration made with [on_any] carries the type string "any",
    which no event of the observer carries: [dispatch] compares the two
    strings and nothing else, so the adapter of such a registration lets
    every event pass unscheduled, whatever its kind and path. *)
Theorem on_any_adapter_schedules_nothing
    (k : WatchdogKind) (src : string) (is_dir : bool)
    (path : string) (f : Callable) (lp : loc) (σ : World) :
  FSAsyncEventHandler.dispatch
    (FSAsyncEventHandler.__init__ (FSCallback.mk EVENT_TYPE_ANY path f) lp)
    (watchdog_event k src is_dir) σ
  = (Returned tt, σ).
Proof. apply dispatch_filtered. by destruct k. Qed.

(** The example program: [say_hello] registered with [on_any] for
    README.md, the session running, README.md modified.  Nothing reaches
    the loop. *)
Example readme_modified_is_dropped :
  let σ := run_ops [OpRegister OnAny 0 "README.md" say_hello;
                    OpRunAsyncBegin 0] module_init in
  let w := {| watch_path := "README.md"; watch_recursive := true |} in
  lifecycle <$> observer_of σ = Some Running
  ∧ deliver FSWatcher.observer_loc w
      (watchdog_event Modified "README.md" false) σ
    = (Returned tt, σ)
  ∧ ready <$> loop_of σ FSAsyncEventHandler.default_loop = Some [].
Proof. repeat split; vm_compute; reflexivity. Qed.

(** ** A closed loop *)

(** With the default loop closed and a session watching, the error of the
    scheduling attempt leaves [dispatch] and unwinds the observer thread. *)
Lemma closed_loop_error_leaves_dispatch :
  closed <$> loop_of torn_down_world FSAsyncEventHandler.default_loop = Some true
  ∧ observer_of torn_down_world
    = Some {| started := true; stopped_event := false; terminated := false;
              handlers := [(watched, created_handler)] |}
  ∧ fst (FSAsyncEventHandler.dispatch created_handler file_created
           torn_down_world)
    = Raised (RuntimeError "Event loop is closed")
  ∧ fst (deliver FSWatcher.observer_loc watched file_created torn_down_world)
    = Raised (RuntimeError "Event loop is closed")
  ∧ lifecycle <$> observer_of
      (snd (deliver FSWatcher.observer_loc watched file_created torn_down_world))
    = Some Stopped.
Proof. repeat split; vm_compute; reflexivity. Qed.

(** C5, as the code has it. [dispatch] has no handler for exceptions: when
    the loop of an adapter is closed, the [RuntimeError] that
    [call_soon_threadsafe] raises for a matching notification leaves
    [dispatch], to the thread that called it, and nothing is queued. *)
Theorem closed_loop_error_is_not_caught
    (h : Handler.t) (ev : FileSystemEvent.t) (σ : World) (lp : EventLoop) :
  loop_of σ (Handler.loop h) = Some lp →
  closed lp = true →
  FileSystemEvent.event_type ev = Handler.event_type_trigger h →
  fst (FSAsyncEventHandler.dispatch h ev σ)
  = Raised (RuntimeError "Event loop is closed")
  ∧ heap (snd (FSAsyncEventHandler.dispatch h ev σ)) = heap σ.
Proof.
  unfold loop_of. intros Hlp Hclosed Hty.
  destruct (heap σ !! Handler.loop h) as [[| |lp'|]|] eqn:Hl; try discriminate.
  injection Hlp as ->.
  destruct (iscoroutinefunction (Handler.callback_function h)) eqn:Hco.
  - rewrite (dispatch_coroutine h ev σ lp Hco Hty Hl). simpl.
    by rewrite Hclosed.
  - rewrite (dispatch_plain h ev σ lp Hco Hty Hl). simpl.
    by rewrite Hclosed.
Qed.

Lemma closed_loop_error_is_not_caught_witness :
  fst (FSAsyncEventHandler.dispatch created_handler file_created
         torn_down_world)
  = Raised (RuntimeError "Event loop is closed").
Proof.
  exact (proj1 (closed_loop_error_is_not_caught created_handler file_created
                  torn_down_world {| closed := true; ready := [] |}
                  eq_refl eq_refl eq_refl)).
Defined.

(** ** What every reachable world satisfies *)

Lemma world_ok_trace σ t :
  world_ok σ → world_ok {| heap := heap σ; trace := t |}.
Proof. intros (o & cbs & lp & ? & ? & ? & ?). by exists o, cbs, lp. Qed.

Lemma world_ok_store_observer σ o' t :
  world_ok σ → handlers_async o' →
  world_ok {| heap := <[FSWatcher.observer_loc := OObserver o']> (heap σ);
              trace := t |}.
Proof.
  intros (o & cbs & lp & Ho & Hc & Hl & Hh) Hh'.
  exists o', cbs, lp. simpl.
  rewrite lookup_insert_eq, !lookup_insert_ne by done. done.
Qed.

Lemma world_ok_store_list σ cbs' t :
  world_ok σ →
  world_ok {| heap := <[FSWatcher.callbacks_loc := OList cbs']> (heap σ);
              trace := t |}.
Proof.
  intros (o & cbs & lp & Ho & Hc & Hl & Hh).
  exists o, cbs', lp. simpl.
  rewrite lookup_insert_eq, !lookup_insert_ne by done. done.
Qed.

Lemma world_ok_store_loop σ l lp0 lp' t :
  world_ok σ → heap σ !! l = Some (OLoop lp0) →
  world_ok {| heap := <[l := OLoop lp']> (heap σ); trace := t |}.
Proof.
  intros (o & cbs & lp & Ho & Hc & Hl & Hh) Hlp0.
  assert (l ≠ FSWatcher.observer_loc) by (intros ->; congruence).
  assert (l ≠ FSWatcher.callbacks_loc) by (intros ->; congruence).
  destruct (decide (l = FSAsyncEventHandler.default_loop)) as [->|Hne].
  - exists o, cbs, lp'. simpl.
    rewrite lookup_insert_eq, !lookup_insert_ne by done. done.
  - exists o, cbs, lp. simpl. rewrite !lookup_insert_ne by done. done.
Qed.

Lemma preserves_ret {A} (a : A) : preserves (mret a).
Proof. by intros σ H. Qed.

Lemma preserves_raise {A} e : preserves (@raise A e).
Proof. by intros σ H. Qed.

Lemma preserves_log e : preserves (log e).
Proof. intros σ H. by apply world_ok_trace. Qed.

Lemma preserves_bind {A B} (m : Py A) (f : A → Py B) :
  preserves m → (∀ a, preserves (f a)) → preserves (m ≫= f).
Proof.
  intros Hm Hf σ H. specialize (Hm σ H). unfold mbind, Py_bind.
  destruct (m σ) as [[a| |] σ1]; simpl in *; try done. by apply Hf.
Qed.

Lemma preserves_getattr self name : preserves (FSWatcher.getattr self name).
Proof.
  intros σ H. unfold FSWatcher.getattr.
  destruct (FSWatcher.self_dict self !! name); [done|].
  by destruct (FSWatcher.class_dict !! name).
Qed.

Lemma preserves_deref_list l : preserves (deref_list l).
Proof.
  intros σ H. unfold deref_list. by destruct (heap σ !! l) as [[| | |]|].
Qed.

Lemma preserves_deref_observer l : preserves (deref_observer l).
Proof.
  intros σ H. unfold deref_observer. by destruct (heap σ !! l) as [[| | |]|].
Qed.

Lemma preserves_deref_loop l : preserves (deref_loop l).
Proof.
  intros σ H. unfold deref_loop. by destruct (heap σ !! l) as [[| | |]|].
Qed.

Lemma world_ok_observer σ :
  world_ok σ →
  ∃ o, heap σ !! FSWatcher.observer_loc = Some (OObserver o) ∧ handlers_async o.
Proof. intros (o & cbs & lp & Ho & Hc & Hl & Hh). by exists o. Qed.

Lemma preserves_schedule h path recursive :
  iscoroutinefunction (Handler.callback_function h) = true →
  Handler.loop h = FSAsyncEventHandler.default_loop →
  preserves (watchdog.schedule FSWatcher.observer_loc h path recursive).
Proof.
  intros Hco Hlp σ H. destruct (world_ok_observer σ H) as (o & Ho & Hh).
  rewrite (schedule_at _ _ _ _ _ _ Ho). simpl.
  apply world_ok_store_observer; [done|].
  unfold handlers_async in *. simpl. apply Forall_app. split; [done|].
  by repeat constructor.
Qed.

Lemma preserves_observer_start : preserves (watchdog.start FSWatcher.observer_loc).
Proof.
  intros σ H. destruct (world_ok_observer σ H) as (o & Ho & Hh).
  rewrite (start_at _ _ _ Ho). simpl.
  destruct (watchdog.first_missing σ (handlers o)); simpl;
    [by apply world_ok_trace|].
  destruct (started o); simpl; [by apply world_ok_trace|].
  by apply world_ok_store_observer.
Qed.

Lemma preserves_observer_stop : preserves (watchdog.stop FSWatcher.observer_loc).
Proof.
  intros σ H. destruct (world_ok_observer σ H) as (o & Ho & Hh).
  rewrite (stop_at _ _ _ Ho). simpl.
  apply world_ok_store_observer; [done|]. constructor.
Qed.

Lemma preserves_observer_join : preserves (watchdog.join FSWatcher.observer_loc).
Proof.
  intros σ H. destruct (world_ok_observer σ H) as (o & Ho & Hh).
  rewrite (join_at _ _ _ Ho).
  destruct (started o), (terminated o), (stopped_event o); simpl;
    try (by apply world_ok_trace); by apply world_ok_store_observer.
Qed.

Lemma preserves_kill_thread : preserves (kill_thread FSWatcher.observer_loc).
Proof.
  intros σ H. destruct (world_ok_observer σ H) as (o & Ho & Hh).
  unfold kill_thread. erewrite bind_returned; [|by apply deref_observer_at].
  simpl. by apply world_ok_store_observer.
Qed.

Lemma preserves_call_soon l arg : preserves (asyncio.call_soon_threadsafe l arg).
Proof.
  intros σ H. unfold asyncio.call_soon_threadsafe. run_py.
  destruct (heap σ !! l) as [[| |lp|]|] eqn:Hl; simpl;
    try (by apply world_ok_trace).
  destruct (closed lp); simpl; [by apply world_ok_trace|].
  by eapply world_ok_store_loop.
Qed.

Lemma preserves_call_callable f ev : preserves (call_callable f ev).
Proof.
  unfold call_callable. destruct (iscoroutinefunction f).
  - apply preserves_ret.
  - apply preserves_bind; [apply preserves_log|intros; apply preserves_ret].
Qed.

Lemma preserves_dispatch h ev : preserves (FSAsyncEventHandler.dispatch h ev).
Proof.
  unfold FSAsyncEventHandler.dispatch. destruct (String.eqb _ _).
  - apply preserves_bind; [apply preserves_call_callable|].
    intros; apply preserves_call_soon.
  - apply preserves_ret.
Qed.

Lemma preserves_dispatch_all hs w ev : preserves (dispatch_all hs w ev).
Proof.
  induction hs as [|[w' h] hs IH]; simpl; [apply preserves_ret|].
  apply preserves_bind; [|done].
  destruct (decide (w' = w)); [apply preserves_dispatch|apply preserves_ret].
Qed.

Lemma preserves_deliver w ev : preserves (deliver FSWatcher.observer_loc w ev).
Proof.
  intros σ H. unfold deliver.
  pose proof (preserves_deref_observer FSWatcher.observer_loc σ H) as Hd.
  destruct (deref_observer _ σ) as [[o| |] σ1]; simpl in *; try done.
  destruct (watchdog.can_deliver o); [|done].
  pose proof (preserves_dispatch_all (handlers o) w ev σ H) as Ha.
  destruct (dispatch_all _ _ _ σ) as [[[]| |] σ2]; simpl in *; try done.
  by apply preserves_kill_thread.
Qed.

Lemma preserves_close_loop l : preserves (close_loop l).
Proof.
  intros σ H. unfold close_loop. run_py.
  destruct (heap σ !! l) as [[| |lp|]|] eqn:Hl; simpl; try done.
  by eapply world_ok_store_loop.
Qed.

Lemma preserves_decorator id kind path f :
  preserves (FSWatcher.decorator (FSWatcher.new id) kind path f).
Proof.
  intros σ H. pose proof H as (o & cbs & lp & Ho & Hc & Hl & Hh).
  rewrite (decorator_at _ _ _ _ _ _ Hc). simpl. by apply world_ok_store_list.
Qed.

Lemma preserves_start id : preserves (FSWatcher.start (FSWatcher.new id)).
Proof. intros σ H. rewrite start_new. by apply preserves_observer_start. Qed.

Lemma preserves_stop id : preserves (FSWatcher.stop (FSWatcher.new id)).
Proof.
  intros σ H. rewrite stop_new. revert σ H.
  apply preserves_bind; [apply preserves_observer_stop|].
  intros; apply preserves_observer_join.
Qed.

Lemma preserves_subscribe id cbs :
  preserves (FSWatcher.subscribe (FSWatcher.new id) cbs).
Proof.
  induction cbs as [|cb cbs IH]; simpl; [apply preserves_ret|].
  destruct (iscoroutinefunction _) eqn:Hco; [|apply preserves_raise].
  intros σ H. erewrite bind_returned; [|apply getattr_observer].
  revert σ H. apply preserves_bind; [|done].
  by apply preserves_schedule.
Qed.

Lemma preserves_run_async_begin id :
  preserves (run_async_begin (FSWatcher.new id)).
Proof.
  unfold run_async_begin.
  apply preserves_bind; [apply preserves_getattr|intros l].
  apply preserves_bind; [apply preserves_deref_list|intros cbs].
  apply preserves_bind; [apply preserves_subscribe|intros _].
  apply preserves_start.
Qed.

Lemma preserves_for_range n (body : Py unit) :
  preserves body → preserves (for_range n body).
Proof.
  intros Hb. induction n as [|n IH]; simpl; [apply preserves_ret|].
  by apply preserves_bind.
Qed.

Lemma preserves_run_async id :
  preserves (FSWatcher.run_async (FSWatcher.new id)).
Proof.
  intros σ H. rewrite run_async_phases. revert σ H.
  apply preserves_bind; [apply preserves_run_async_begin|intros _].
  apply preserves_bind; [|intros _; apply preserves_stop].
  apply preserves_for_range. apply preserves_log.
Qed.

Lemma preserves_watch id : preserves (FSWatcher.watch (FSWatcher.new id)).
Proof.
  unfold FSWatcher.watch, asyncio.run_until_complete.
  apply preserves_bind; [apply preserves_getattr|intros l].
  apply preserves_bind; [apply preserves_deref_loop|intros lp].
  destruct (closed lp); [apply preserves_raise|apply preserves_run_async].
Qed.

Lemma preserves_unlink path : preserves (unlink path).
Proof.
  intros σ (o & cbs & lp & Ho & Hc & Hl & Hh). exists o, cbs, lp.
  unfold unlink. simpl. by rewrite !lookup_insert_ne.
Qed.

Lemma module_init_ok : world_ok module_init.
Proof.
  exists fresh_observer, [], {| closed := false; ready := [] |}.
  repeat split; try reflexivity. constructor.
Qed.

Lemma exec_ok op σ : world_ok σ → world_ok (exec op σ).
Proof.
  intros H. destruct op as [r id path f| | | | | | | | | |]; simpl.
  - destruct r; by apply preserves_decorator.
  - by apply preserves_run_async.
  - by apply preserves_run_async_begin.
  - by apply (preserves_log (Sleep 1)).
  - by apply preserves_watch.
  - by apply preserves_start.
  - by apply preserves_stop.
  - done.
  - by apply preserves_deliver.
  - by apply preserves_close_loop.
  - by apply preserves_unlink.
Qed.

Lemma reachable_ok σ : reachable σ → world_ok σ.
Proof.
  induction 1 as [|σ op _ IH]; [apply module_init_ok|by apply exec_ok].
Qed.

(** ** Handing a notification to the loop *)

(** C3. In every reachable world, [dispatch] of a handler subscribed to the
    observer, on a notification that matches it, does not run the handler's
    body: calling the handler only makes a coroutine object, and the one
    effect of [dispatch] is the request [call_soon_threadsafe] places on the
    loop, after which [dispatch] returns (or, the loop being closed, raises
    with nothing queued). *)
Theorem dispatch_enqueues_without_running
    (σ : World) (o : Observer) (w : ObservedWatch) (h : Handler.t)
    (ev : FileSystemEvent.t) :
  reachable σ →
  observer_of σ = Some o →
  (w, h) ∈ handlers o →
  FileSystemEvent.event_type ev = Handler.event_type_trigger h →
  ∃ lp, loop_of σ (Handler.loop h) = Some lp
    ∧ FSAsyncEventHandler.dispatch h ev σ
      = let coro := VCoroutine (fn_id (Handler.callback_function h)) ev in
        let t := trace σ ++ [CallSoon (Handler.loop h) coro] in
        if closed lp
        then (Raised (RuntimeError "Event loop is closed"),
              {| heap := heap σ; trace := t |})
        else (Returned tt,
              {| heap := <[Handler.loop h :=
                            OLoop {| closed := closed lp;
                                     ready := ready lp ++ [CreateTask coro] |}]>
                           (heap σ);
                 trace := t |}).
Proof.
  intros Hreach Ho Hin Hty.
  destruct (reachable_ok σ Hreach) as (o' & cbs & lp & Ho' & _ & Hl & Hh).
  unfold observer_of in Ho. rewrite Ho' in Ho. injection Ho as ->.
  unfold handlers_async in Hh. rewrite Forall_forall in Hh.
  destruct (Hh (w, h) Hin) as [Hco Hloop]. simpl in Hco, Hloop.
  exists lp. split.
  - unfold loop_of. by rewrite Hloop, Hl.
  - apply dispatch_coroutine; [done|done|by rewrite Hloop].
Qed.

Lemma dispatch_enqueues_without_running_witness :
  ∃ lp, loop_of watching_world (Handler.loop created_handler) = Some lp
    ∧ FSAsyncEventHandler.dispatch created_handler file_created watching_world
      = if closed lp
        then (Raised (RuntimeError "Event loop is closed"),
              {| heap := heap watching_world;
                 trace := trace watching_world
                          ++ [CallSoon (Handler.loop created_handler)
                                (VCoroutine (fn_id say_hello) file_created)] |})
        else (Returned tt,
              {| heap := <[Handler.loop created_handler :=
                            OLoop {| closed := closed lp;
                                     ready := ready lp
                                       ++ [CreateTask (VCoroutine (fn_id say_hello)
                                                         file_created)] |}]>
                           (heap watching_world);
                 trace := trace watching_world
                          ++ [CallSoon (Handler.loop created_handler)
                                (VCoroutine (fn_id say_hello) file_created)] |}).
Proof.
  apply (dispatch_enqueues_without_running watching_world
           {| started := true; stopped_event := false; terminated := false;
              handlers := [adapter created_registration] |}
           watched created_handler file_created).
  - apply (reachable_step _ (OpRunAsyncBegin 0)).
    apply (reachable_step _ (OpRegister OnCreated 0 "/tmp/watched" say_hello)).
    apply reachable_init.
  - reflexivity.
  - left.
  - reflexivity.
Defined.

(** What the loop holds after the watcher thread delivered a created file
    to the watching session: one task request, and no handler body ran. *)
Example created_file_is_scheduled_once :
  let σ' := snd (deliver FSWatcher.observer_loc watched file_created
                   watching_world) in
  ready <$> loop_of σ' FSAsyncEventHandler.default_loop
  = Some [CreateTask (VCoroutine (fn_id say_hello) file_created)]
  ∧ trace σ'
    = trace watching_world
      ++ [CallSoon FSAsyncEventHandler.default_loop
            (VCoroutine (fn_id say_hello) file_created)].
Proof. split; vm_compute; reflexivity. Qed.

(** * Further properties of the module *)

(** ** Registrations in a row *)

Lemma registrar_is_decorator r id path f σ :
  registrar_method r (FSWatcher.new id) path f σ
  = FSWatcher.decorator (FSWatcher.new id) (registrar_kind r) path f σ.
Proof. by destruct r. Qed.

(** X1. Decorators applied one after the other, through whichever
    instances, leave the callback list extended by their registrations in
    call order (nothing merged, nothing dropped), and touch neither the
    observer nor the loop: no registration subscribes or starts anything. *)
Theorem registrations_accumulate_in_order
    (qs : list Request) (σ : World) (cbs : list FSCallback.t) :
  callbacks_of σ = Some cbs →
  register_all qs σ
  = (Returned tt,
     {| heap := <[FSWatcher.callbacks_loc :=
                   OList (cbs ++ map registration_of qs)]> (heap σ);
        trace := trace σ |}).
Proof.
  unfold callbacks_of. intros H.
  destruct (heap σ !! FSWatcher.callbacks_loc) as [[l| | |]|] eqn:Hl;
    try discriminate.
  injection H as ->.
  revert σ cbs Hl. induction qs as [|q qs IH]; intros σ cbs Hl.
  - simpl. rewrite app_nil_r, insert_id by done. by rewrite world_eta.
  - simpl. erewrite bind_returned; cycle 1.
    { rewrite registrar_is_decorator. by apply decorator_at. }
    rewrite IH with (cbs := cbs ++ [registration_of q]);
      [|simpl; by rewrite lookup_insert_eq].
    simpl. rewrite insert_insert_eq. by rewrite <- app_assoc.
Qed.

Lemma registrations_accumulate_in_order_witness :
  register_all
    [{| by_method := OnCreated; through := 0; for_path := "/tmp/watched";
        decorated := say_hello |};
     {| by_method := OnModified; through := 3; for_path := "/tmp/other";
        decorated := print_path |}] module_init
  = (Returned tt, mixed_world).
Proof.
  exact (registrations_accumulate_in_order
           [{| by_method := OnCreated; through := 0;
               for_path := "/tmp/watched"; decorated := say_hello |};
            {| by_method := OnModified; through := 3;
               for_path := "/tmp/other"; decorated := print_path |}]
           module_init [] eq_refl).
Defined.

(** ** The filter, kind by kind *)

Lemma dispatch_schedules h ev σ lp :
  iscoroutinefunction (Handler.callback_function h) = true →
  heap σ !! Handler.loop h = Some (OLoop lp) →
  closed lp = false →
  FSAsyncEventHandler.dispatch h ev σ
  = (Returned tt,
     if triggers h ev
     then with_requests σ (Handler.loop h) lp [coroutine_for h ev]
     else σ).
Proof.
  intros Hco Hlp Hopen. unfold triggers.
  destruct (String.eqb _ _) eqn:Hty.
  - apply String.eqb_eq in Hty.
    rewrite (dispatch_coroutine h ev σ lp Hco Hty Hlp).
    unfold with_requests, coroutine_for. simpl. by destruct (closed lp).
  - apply String.eqb_neq in Hty. by apply dispatch_filtered.
Qed.

(** X2. The adapter of a registration made with one of the five decorators
    schedules an observer event exactly when the decorator is the one named
    after the event's kind: [on_created] for created events, and so on for
    moved, deleted and modified; every other event leaves the world as it
    was. *)
Theorem adapter_schedules_its_own_kind_only
    (r : Registrar) (k : WatchdogKind) (src path : string) (is_dir : bool)
    (f : Callable) (σ : World) (lp : EventLoop) :
  iscoroutinefunction f = true →
  loop_of σ FSAsyncEventHandler.default_loop = Some lp →
  closed lp = false →
  let h := snd (adapter (FSCallback.mk (registrar_kind r) path f)) in
  let ev := watchdog_event k src is_dir in
  FSAsyncEventHandler.dispatch h ev σ
  = (Returned tt,
     if decide (r = kind_registrar k)
     then with_requests σ FSAsyncEventHandler.default_loop lp
            [VCoroutine (fn_id f) ev]
     else σ).
Proof.
  intros Hco Hlp Hopen h ev. subst h ev. unfold loop_of in Hlp.
  destruct (heap σ !! FSAsyncEventHandler.default_loop) as [[| |lp'|]|] eqn:Hl;
    try discriminate.
  injection Hlp as ->.
  rewrite (dispatch_schedules _ _ σ lp); [|done|done|done].
  f_equal. by destruct r, k.
Qed.

Lemma adapter_schedules_its_own_kind_only_witness :
  FSAsyncEventHandler.dispatch created_handler file_created watching_world
  = (Returned tt,
     with_requests watching_world FSAsyncEventHandler.default_loop
       {| closed := false; ready := [] |}
       [VCoroutine (fn_id say_hello) file_created]).
Proof.
  exact (adapter_schedules_its_own_kind_only OnCreated Created
           "/tmp/watched/file.txt" "/tmp/watched" false say_hello
           watching_world {| closed := false; ready := [] |}
           eq_refl eq_refl eq_refl).
Defined.

(** ** Events in a row *)

Lemma with_requests_none σ l lp :
  heap σ !! l = Some (OLoop lp) → with_requests σ l lp [] = σ.
Proof.
  intros H. unfold with_requests. simpl. rewrite !app_nil_r.
  destruct lp. simpl. rewrite insert_id by done. apply world_eta.
Qed.

(** X3. Events handed to one adapter in a row by the same thread reach the
    loop in that order: the loop's queue and the trace grow by one request
    per event whose type equals the adapter's trigger, oldest first, and
    the other events leave no mark. *)
Theorem dispatch_keeps_arrival_order
    (h : Handler.t) (evs : list FileSystemEvent.t) (σ : World)
    (lp : EventLoop) :
  iscoroutinefunction (Handler.callback_function h) = true →
  loop_of σ (Handler.loop h) = Some lp →
  closed lp = false →
  dispatch_each h evs σ
  = (Returned tt,
     with_requests σ (Handler.loop h) lp
       (map (coroutine_for h) (filter (λ ev, triggers h ev = true) evs))).
Proof.
  unfold loop_of. intros Hco Hlp Hopen.
  destruct (heap σ !! Handler.loop h) as [[| |lp'|]|] eqn:Hl; try discriminate.
  injection Hlp as ->.
  revert σ lp Hl Hopen. induction evs as [|ev evs IH]; intros σ lp Hl Hopen.
  - simpl. by rewrite with_requests_none.
  - simpl. erewrite bind_returned; [|by apply dispatch_schedules].
    rewrite filter_cons. destruct (triggers h ev) eqn:Hev.
    + rewrite decide_True by done.
      erewrite IH; [|simpl; by rewrite lookup_insert_eq|done].
      unfold with_requests. simpl.
      rewrite insert_insert_eq. by rewrite <- !app_assoc.
    + rewrite decide_False by done. by apply IH.
Qed.

Lemma dispatch_keeps_arrival_order_witness :
  dispatch_each created_handler
    [watchdog_event Created "/tmp/watched/a" false;
     watchdog_event Modified "/tmp/watched/a" false;
     watchdog_event Created "/tmp/watched/b" false] watching_world
  = (Returned tt,
     with_requests watching_world FSAsyncEventHandler.default_loop
       {| closed := false; ready := [] |}
       [VCoroutine (fn_id say_hello)
          (watchdog_event Created "/tmp/watched/a" false);
        VCoroutine (fn_id say_hello)
          (watchdog_event Created "/tmp/watched/b" false)]).
Proof.
  exact (dispatch_keeps_arrival_order created_handler
           [watchdog_event Created "/tmp/watched/a" false;
            watchdog_event Modified "/tmp/watched/a" false;
            watchdog_event Created "/tmp/watched/b" false]
           watching_world {| closed := false; ready := [] |}
           eq_refl eq_refl eq_refl).
Defined.

(** ** Footprints *)

Lemma frames_ret l0 {A} (a : A) : frames l0 (mret a).
Proof. by intros σ l _. Qed.

Lemma frames_raise l0 {A} e : frames l0 (@raise A e).
Proof. by intros σ l _. Qed.

Lemma frames_block l0 {A} : frames l0 (@block A).
Proof. by intros σ l _. Qed.

Lemma frames_log l0 e : frames l0 (log e).
Proof. by intros σ l _. Qed.

Lemma frames_store l0 v : frames l0 (store l0 v).
Proof. intros σ l Hne. simpl. by rewrite lookup_insert_ne. Qed.

Lemma frames_bind l0 {A B} (m : Py A) (f : A → Py B) :
  frames l0 m → (∀ a, frames l0 (f a)) → frames l0 (m ≫= f).
Proof.
  intros Hm Hf σ l Hne. specialize (Hm σ l Hne). unfold mbind, Py_bind.
  destruct (m σ) as [[a| |] σ1]; simpl in *; try done.
  by rewrite (Hf a σ1 l Hne).
Qed.

Lemma frames_deref_observer l0 l : frames l0 (deref_observer l).
Proof.
  intros σ l' _. unfold deref_observer. by destruct (heap σ !! l) as [[| | |]|].
Qed.

Lemma frames_deref_list l0 l : frames l0 (deref_list l).
Proof.
  intros σ l' _. unfold deref_list. by destruct (heap σ !! l) as [[| | |]|].
Qed.

Lemma frames_deref_loop l0 l : frames l0 (deref_loop l).
Proof.
  intros σ l' _. unfold deref_loop. by destruct (heap σ !! l) as [[| | |]|].
Qed.

Lemma frames_getattr l0 self name : frames l0 (FSWatcher.getattr self name).
Proof.
  intros σ l _. unfold FSWatcher.getattr.
  destruct (FSWatcher.self_dict self !! name); [done|].
  by destruct (FSWatcher.class_dict !! name).
Qed.

Lemma frames_call_soon l arg : frames l (asyncio.call_soon_threadsafe l arg).
Proof.
  unfold asyncio.call_soon_threadsafe.
  apply frames_bind; [apply frames_log|intros _].
  apply frames_bind; [apply frames_deref_loop|intros lp].
  destruct (closed lp); [apply frames_raise|apply frames_store].
Qed.

Lemma frames_call_callable l0 f ev : frames l0 (call_callable f ev).
Proof.
  unfold call_callable. destruct (iscoroutinefunction f); [apply frames_ret|].
  apply frames_bind; [apply frames_log|intros; apply frames_ret].
Qed.

Lemma frames_dispatch h ev :
  frames (Handler.loop h) (FSAsyncEventHandler.dispatch h ev).
Proof.
  unfold FSAsyncEventHandler.dispatch.
  destruct (String.eqb _ _); [|apply frames_ret].
  apply frames_bind; [apply frames_call_callable|intros; apply frames_call_soon].
Qed.

Lemma frames_schedule l h path recursive :
  frames l (watchdog.schedule l h path recursive).
Proof.
  unfold watchdog.schedule.
  apply frames_bind; [apply frames_log|intros _].
  apply frames_bind; [apply frames_deref_observer|intros o].
  apply frames_bind; [apply frames_store|intros; apply frames_ret].
Qed.

Lemma frames_observer_start l : frames l (watchdog.start l).
Proof.
  unfold watchdog.start.
  apply frames_bind; [apply frames_log|intros _].
  apply frames_bind; [apply frames_deref_observer|intros o].
  apply frames_bind; [by intros σ l' _|intros [path|]].
  - apply frames_raise.
  - destruct (started o); [apply frames_raise|apply frames_store].
Qed.

Lemma frames_observer_stop l : frames l (watchdog.stop l).
Proof.
  unfold watchdog.stop.
  apply frames_bind; [apply frames_log|intros _].
  apply frames_bind; [apply frames_deref_observer|intros o].
  apply frames_store.
Qed.

Lemma frames_observer_join l : frames l (watchdog.join l).
Proof.
  unfold watchdog.join.
  apply frames_bind; [apply frames_log|intros _].
  apply frames_bind; [apply frames_deref_observer|intros o].
  destruct (negb (started o)); [apply frames_raise|].
  destruct (terminated o); [apply frames_ret|].
  destruct (stopped_event o); [apply frames_store|apply frames_block].
Qed.

Lemma frames_start id :
  frames FSWatcher.observer_loc (FSWatcher.start (FSWatcher.new id)).
Proof. intros σ l Hne. rewrite start_new. by apply frames_observer_start. Qed.

Lemma frames_stop id :
  frames FSWatcher.observer_loc (FSWatcher.stop (FSWatcher.new id)).
Proof.
  intros σ l Hne. rewrite stop_new. revert σ l Hne.
  apply frames_bind; [apply frames_observer_stop|].
  intros; apply frames_observer_join.
Qed.

Lemma frames_subscribe id cbs :
  frames FSWatcher.observer_loc (FSWatcher.subscribe (FSWatcher.new id) cbs).
Proof.
  induction cbs as [|cb cbs IH]; simpl; [apply frames_ret|].
  destruct (iscoroutinefunction _); [|apply frames_raise].
  intros σ l Hne. erewrite bind_returned; [|apply getattr_observer].
  revert σ l Hne. apply frames_bind; [apply frames_schedule|done].
Qed.

Lemma frames_run_async_begin id :
  frames FSWatcher.observer_loc (run_async_begin (FSWatcher.new id)).
Proof.
  unfold run_async_begin.
  apply frames_bind; [apply frames_getattr|intros l].
  apply frames_bind; [apply frames_deref_list|intros cbs].
  apply frames_bind; [apply frames_subscribe|intros _; apply frames_start].
Qed.

Lemma frames_for_range l0 n (body : Py unit) :
  frames l0 body → frames l0 (for_range n body).
Proof.
  intros Hb. induction n as [|n IH]; simpl; [apply frames_ret|].
  by apply frames_bind.
Qed.

Lemma frames_run_async id :
  frames FSWatcher.observer_loc (FSWatcher.run_async (FSWatcher.new id)).
Proof.
  intros σ l Hne. rewrite run_async_phases. revert σ l Hne.
  apply frames_bind; [apply frames_run_async_begin|intros _].
  apply frames_bind; [|intros _; apply frames_stop].
  apply frames_for_range. apply frames_log.
Qed.

Lemma frames_watch id :
  frames FSWatcher.observer_loc (FSWatcher.watch (FSWatcher.new id)).
Proof.
  unfold FSWatcher.watch, asyncio.run_until_complete.
  apply frames_bind; [apply frames_getattr|intros l].
  apply frames_bind; [apply frames_deref_loop|intros lp].
  destruct (closed lp); [apply frames_raise|apply frames_run_async].
Qed.

(** X4. For an adapter around a coroutine function, whatever the event
    and the world, [dispatch] changes no object but the loop the adapter is
    bound to (the observer and the callback list stay as they are) and it
    never waits: it returns or raises. *)
Theorem dispatch_touches_only_its_loop
    (h : Handler.t) (ev : FileSystemEvent.t) (σ : World) (l : loc) :
  iscoroutinefunction (Handler.callback_function h) = true →
  l ≠ Handler.loop h →
  heap (snd (FSAsyncEventHandler.dispatch h ev σ)) !! l = heap σ !! l
  ∧ fst (FSAsyncEventHandler.dispatch h ev σ) ≠ Blocked.
Proof.
  intros Hco Hne. unfold FSAsyncEventHandler.dispatch.
  destruct (String.eqb _ _); [|done].
  unfold call_callable. rewrite Hco.
  erewrite bind_returned; [|reflexivity].
  split; [by apply frames_call_soon|].
  unfold asyncio.call_soon_threadsafe. run_py.
  destruct (heap σ !! Handler.loop h) as [[| |lp|]|]; simpl; try done.
  by destruct (closed lp).
Qed.

Lemma dispatch_touches_only_its_loop_witness :
  heap (snd (FSAsyncEventHandler.dispatch created_handler file_created
               watching_world)) !! FSWatcher.observer_loc
  = heap watching_world !! FSWatcher.observer_loc.
Proof.
  apply (dispatch_touches_only_its_loop created_handler file_created
           watching_world FSWatcher.observer_loc).
  - reflexivity.
  - discriminate.
Defined.

(** X6. [run_async], [start] and [stop] change no object but the observer,
    however they end: the callback list is left as registered and nothing
    is queued on the loop by them. *)
Theorem lifecycle_methods_touch_only_the_observer
    (id : nat) (σ : World) (l : loc) :
  l ≠ FSWatcher.observer_loc →
  heap (snd (FSWatcher.run_async (FSWatcher.new id) σ)) !! l = heap σ !! l
  ∧ heap (snd (FSWatcher.start (FSWatcher.new id) σ)) !! l = heap σ !! l
  ∧ heap (snd (FSWatcher.stop (FSWatcher.new id) σ)) !! l = heap σ !! l.
Proof.
  intros Hne. split; [|split].
  - by apply frames_run_async.
  - by apply frames_start.
  - by apply frames_stop.
Qed.

Lemma lifecycle_methods_touch_only_the_observer_witness :
  heap (snd (FSWatcher.run_async (FSWatcher.new 0) mixed_world))
    !! FSWatcher.callbacks_loc
  = heap mixed_world !! FSWatcher.callbacks_loc.
Proof.
  apply (lifecycle_methods_touch_only_the_observer 0 mixed_world
           FSWatcher.callbacks_loc).
  discriminate.
Defined.

(** ** A session is used once *)

(** X5. Once the observer has been started, by an earlier run or by
    [start], [run_async] with coroutine functions only, their paths being
    there, subscribes every registration anew (on a table that the earlier
    run's [stop] has emptied) and then fails in [start] with the thread's
    [RuntimeError]: it neither sleeps nor stops. *)
Theorem run_async_on_a_used_session_fails_in_start
    (id : nat) (σ : World) (o : Observer) (cbs : list FSCallback.t) :
  observer_of σ = Some o →
  callbacks_of σ = Some cbs →
  Forall is_coroutine cbs →
  lifecycle o ≠ Idle →
  watchdog.first_missing σ (handlers o ++ map adapter cbs) = None →
  FSWatcher.run_async (FSWatcher.new id) σ
  = (Raised (RuntimeError "threads can only be started once"),
     with_observer σ (subscribed o (map adapter cbs))
       (map subscription cbs ++ [ObsStart])).
Proof.
  unfold observer_of, callbacks_of, lifecycle.
  intros Ho Hcbs Hall Hused Hpaths.
  destruct (heap σ !! FSWatcher.observer_loc) as [[| o'| |]|] eqn:Ho';
    try discriminate.
  destruct (heap σ !! FSWatcher.callbacks_loc) as [[l| | |]|] eqn:Hl;
    try discriminate.
  injection Ho as ->. injection Hcbs as ->.
  destruct (started o) eqn:Hst; [clear Hused|done].
  rewrite run_async_phases.
  erewrite bind_raised; [reflexivity|].
  rewrite (run_async_begin_at id σ o cbs Ho' Hl Hall). simpl.
  by rewrite Hpaths, Hst.
Qed.

Lemma run_async_on_a_used_session_fails_in_start_witness :
  FSWatcher.run_async (FSWatcher.new 1) finished_world
  = (Raised (RuntimeError "threads can only be started once"),
     with_observer finished_world
       {| started := true; stopped_event := true; terminated := true;
          handlers := [adapter created_registration] |}
       [subscription created_registration; ObsStart]).
Proof.
  apply (run_async_on_a_used_session_fails_in_start 1 finished_world
           {| started := true; stopped_event := true; terminated := true;
              handlers := [] |}
           [created_registration]).
  - reflexivity.
  - reflexivity.
  - repeat constructor.
  - discriminate.
  - reflexivity.
Defined.

(** X10. On an idle session whose subscribed paths are there, [start()]
    followed by [stop()] returns with the session stopped and the
    observer's subscriptions dropped: the observer is started, signalled
    and joined, in that order. *)
Theorem start_then_stop_ends_stopped
    (id : nat) (σ : World) (o : Observer) :
  observer_of σ = Some o →
  lifecycle o = Idle →
  watchdog.first_missing σ (handlers o) = None →
  (FSWatcher.start (FSWatcher.new id) ;; FSWatcher.stop (FSWatcher.new id)) σ
  = (Returned tt,
     with_observer σ
       {| started := true; stopped_event := true; terminated := true;
          handlers := [] |}
       [ObsStart; ObsStop; ObsJoin]).
Proof.
  unfold observer_of, lifecycle. intros Ho Hidle Hpaths.
  destruct (heap σ !! FSWatcher.observer_loc) as [[| o'| |]|] eqn:Ho';
    try discriminate.
  injection Ho as ->.
  destruct (started o) eqn:Hst; [by destruct (terminated o)|clear Hidle].
  erewrite bind_returned; cycle 1.
  { rewrite start_new, (start_at _ _ _ Ho'). simpl.
    by rewrite Hpaths, Hst. }
  erewrite stop_at_observer; [|simpl; by rewrite lookup_insert_eq].
  simpl. unfold with_observer. simpl.
  by rewrite insert_insert_eq, <- app_assoc.
Qed.

Lemma start_then_stop_ends_stopped_witness :
  (FSWatcher.start (FSWatcher.new 0) ;; FSWatcher.stop (FSWatcher.new 0))
    module_init
  = (Returned tt, stopped_world).
Proof.
  exact (start_then_stop_ends_stopped 0 module_init fresh_observer
           eq_refl eq_refl eq_refl).
Defined.

(** ** The callback list only grows *)

Lemma keeps_bind (I : World → Prop) {A B} (m : Py A) (f : A → Py B) :
  keeps I m → (∀ a, keeps I (f a)) → keeps I (m ≫= f).
Proof.
  intros Hm Hf σ H. specialize (Hm σ H). unfold mbind, Py_bind.
  destruct (m σ) as [[a| |] σ1]; simpl in *; try done. by apply Hf.
Qed.

Lemma keeps_ret (I : World → Prop) {A} (a : A) : keeps I (mret a).
Proof. by intros σ H. Qed.

Lemma frames_keeps_lookup l0 l v {A} (m : Py A) :
  frames l0 m → l ≠ l0 → keeps (λ σ, heap σ !! l = Some v) m.
Proof. intros Hm Hne σ H. by rewrite (Hm σ l Hne). Qed.

Lemma call_soon_keeps_list l0 cbs l arg :
  keeps (λ σ, heap σ !! l0 = Some (OList cbs))
    (asyncio.call_soon_threadsafe l arg).
Proof.
  destruct (decide (l0 = l)) as [<-|Hne];
    [|apply (frames_keeps_lookup l); [apply frames_call_soon|done]].
  intros σ H. unfold asyncio.call_soon_threadsafe. run_py. by rewrite H.
Qed.

Lemma dispatch_keeps_list l0 cbs h ev :
  keeps (λ σ, heap σ !! l0 = Some (OList cbs))
    (FSAsyncEventHandler.dispatch h ev).
Proof.
  unfold FSAsyncEventHandler.dispatch.
  destruct (String.eqb _ _); [|apply keeps_ret].
  apply keeps_bind; [|intros; apply call_soon_keeps_list].
  unfold call_callable. destruct (iscoroutinefunction _); [apply keeps_ret|].
  apply keeps_bind; [by intros σ H|intros; apply keeps_ret].
Qed.

Lemma dispatch_all_keeps_list l0 cbs hs w ev :
  keeps (λ σ, heap σ !! l0 = Some (OList cbs)) (dispatch_all hs w ev).
Proof.
  induction hs as [|[w' h] hs IH]; simpl; [apply keeps_ret|].
  apply keeps_bind; [|done].
  destruct (decide (w' = w)); [apply dispatch_keeps_list|apply keeps_ret].
Qed.

Lemma frames_kill_thread l : frames l (kill_thread l).
Proof.
  unfold kill_thread.
  apply frames_bind; [apply frames_deref_observer|intros o].
  apply frames_store.
Qed.

Lemma deliver_keeps_list cbs w ev :
  keeps (λ σ, heap σ !! FSWatcher.callbacks_loc = Some (OList cbs))
    (deliver FSWatcher.observer_loc w ev).
Proof.
  intros σ H. unfold deliver.
  destruct (deref_observer _ σ) as [[o| |] σ1] eqn:Hd; simpl.
  - destruct (watchdog.can_deliver o); [|done].
    pose proof (dispatch_all_keeps_list FSWatcher.callbacks_loc cbs
                  (handlers o) w ev σ H) as Ha.
    destruct (dispatch_all _ _ _ σ) as [[[]| |] σ2]; simpl in *; try done.
    by rewrite (frames_kill_thread FSWatcher.observer_loc σ2).
  - unfold deref_observer in Hd.
    destruct (heap σ !! FSWatcher.observer_loc) as [[| | |]|];
      by injection Hd as _ <-.
  - unfold deref_observer in Hd.
    destruct (heap σ !! FSWatcher.observer_loc) as [[| | |]|]; discriminate.
Qed.

Lemma frames_close_loop l : frames l (close_loop l).
Proof.
  unfold close_loop.
  apply frames_bind; [apply frames_deref_loop|intros lp; apply frames_store].
Qed.

Lemma frames_unlink path : frames watchdog.fs_loc (unlink path).
Proof. intros σ l Hne. unfold unlink. simpl. by rewrite lookup_insert_ne. Qed.

(** X7. The callback list changes in one way only: a decorator appends its
    registration to it. No other step (a run, a start or stop, a delivery
    by the observer thread, the loop being closed) adds, removes or
    reorders a registration. *)
Theorem only_decorators_change_the_callbacks
    (op : Op) (σ : World) (cbs : list FSCallback.t) :
  callbacks_of σ = Some cbs →
  callbacks_of (exec op σ) = Some (callbacks_after op cbs).
Proof.
  unfold callbacks_of. intros H.
  destruct (heap σ !! FSWatcher.callbacks_loc) as [[l| | |]|] eqn:Hl;
    try discriminate.
  injection H as ->.
  assert (∀ (m : Py unit),
            keeps (λ τ, heap τ !! FSWatcher.callbacks_loc = Some (OList cbs)) m →
            match heap (snd (m σ)) !! FSWatcher.callbacks_loc with
            | Some (OList l) => Some l
            | _ => None
            end = Some cbs) as Hkeep.
  { intros m Hm. by rewrite (Hm σ Hl). }
  destruct op as [r id path f| | | | | | | | | |]; simpl.
  - rewrite registrar_is_decorator, (decorator_at _ _ _ _ _ _ Hl). simpl.
    by rewrite lookup_insert_eq.
  - apply Hkeep.
    apply (frames_keeps_lookup FSWatcher.observer_loc); [apply frames_run_async|done].
  - apply Hkeep.
    apply (frames_keeps_lookup FSWatcher.observer_loc); [apply frames_run_async_begin|done].
  - by rewrite Hl.
  - apply Hkeep.
    apply (frames_keeps_lookup FSWatcher.observer_loc); [apply frames_watch|done].
  - apply Hkeep.
    apply (frames_keeps_lookup FSWatcher.observer_loc); [apply frames_start|done].
  - apply Hkeep.
    apply (frames_keeps_lookup FSWatcher.observer_loc); [apply frames_stop|done].
  - by rewrite Hl.
  - apply Hkeep. apply deliver_keeps_list.
  - apply Hkeep.
    apply (frames_keeps_lookup FSAsyncEventHandler.default_loop);
      [apply frames_close_loop|done].
  - apply (Hkeep (unlink path)).
    apply (frames_keeps_lookup watchdog.fs_loc); [apply frames_unlink|done].
Qed.

Lemma only_decorators_change_the_callbacks_witness :
  callbacks_of (exec (OpRunAsync 0) registered_world)
  = Some [created_registration].
Proof.
  exact (only_decorators_change_the_callbacks (OpRunAsync 0) registered_world
           [created_registration] eq_refl).
Defined.

(** ** Every subscription stems from a registration *)

Lemma registered_from_mono cbs cbs' wh :
  cbs ⊆ cbs' → registered_from cbs wh → registered_from cbs' wh.
Proof. intros Hsub (cb & Hin & Hco & ->). exists cb. auto. Qed.

Lemma linked_trace σ t : linked σ → linked {| heap := heap σ; trace := t |}.
Proof. intros (o & cbs & ? & ? & ?). by exists o, cbs. Qed.

Lemma linked_store_observer σ o o' t :
  linked σ →
  heap σ !! FSWatcher.observer_loc = Some (OObserver o) →
  handlers o' = handlers o →
  linked {| heap := <[FSWatcher.observer_loc := OObserver o']> (heap σ);
            trace := t |}.
Proof.
  intros (o0 & cbs & Ho & Hc & Hh) Ho' Heq.
  rewrite Ho in Ho'. injection Ho' as <-.
  exists o', cbs. simpl.
  rewrite lookup_insert_eq, lookup_insert_ne by done. by rewrite Heq.
Qed.

Lemma linked_store_loop σ l lp0 lp' t :
  linked σ → heap σ !! l = Some (OLoop lp0) →
  linked {| heap := <[l := OLoop lp']> (heap σ); trace := t |}.
Proof.
  intros (o & cbs & Ho & Hc & Hh) Hlp0.
  assert (l ≠ FSWatcher.observer_loc) by (intros ->; congruence).
  assert (l ≠ FSWatcher.callbacks_loc) by (intros ->; congruence).
  exists o, cbs. simpl. by rewrite !lookup_insert_ne.
Qed.

Lemma linked_drop_subscriptions σ o' t :
  linked σ → handlers o' = [] →
  linked {| heap := <[FSWatcher.observer_loc := OObserver o']> (heap σ);
            trace := t |}.
Proof.
  intros (o & cbs & Ho & Hc & Hh) Heq. exists o', cbs. simpl.
  rewrite lookup_insert_eq, lookup_insert_ne by done. rewrite Heq.
  split; [done|]. split; [done|]. constructor.
Qed.

Lemma linked_observer σ :
  linked σ → ∃ o, heap σ !! FSWatcher.observer_loc = Some (OObserver o).
Proof. intros (o & cbs & Ho & _). by exists o. Qed.

Lemma keeps_linked_log e : keeps linked (log e).
Proof. intros σ H. by apply linked_trace. Qed.

Lemma keeps_linked_start : keeps linked (watchdog.start FSWatcher.observer_loc).
Proof.
  intros σ H. destruct (linked_observer σ H) as (o & Ho).
  rewrite (start_at _ _ _ Ho). simpl.
  destruct (watchdog.first_missing σ (handlers o)); simpl;
    [by apply linked_trace|].
  destruct (started o); simpl; [by apply linked_trace|].
  by eapply linked_store_observer.
Qed.

Lemma keeps_linked_stop : keeps linked (watchdog.stop FSWatcher.observer_loc).
Proof.
  intros σ H. destruct (linked_observer σ H) as (o & Ho).
  rewrite (stop_at _ _ _ Ho). simpl. by apply linked_drop_subscriptions.
Qed.

Lemma keeps_linked_join : keeps linked (watchdog.join FSWatcher.observer_loc).
Proof.
  intros σ H. destruct (linked_observer σ H) as (o & Ho).
  rewrite (join_at _ _ _ Ho).
  destruct (started o), (terminated o), (stopped_event o); simpl;
    try (by apply linked_trace); by eapply linked_store_observer.
Qed.

Lemma keeps_linked_kill_thread : keeps linked (kill_thread FSWatcher.observer_loc).
Proof.
  intros σ H. destruct (linked_observer σ H) as (o & Ho).
  unfold kill_thread. erewrite bind_returned; [|by apply deref_observer_at].
  simpl. by eapply linked_store_observer.
Qed.

Lemma keeps_linked_call_soon l arg :
  keeps linked (asyncio.call_soon_threadsafe l arg).
Proof.
  intros σ H. unfold asyncio.call_soon_threadsafe. run_py.
  destruct (heap σ !! l) as [[| |lp|]|] eqn:Hl; simpl;
    try (by apply linked_trace).
  destruct (closed lp); simpl; [by apply linked_trace|].
  by eapply linked_store_loop.
Qed.

Lemma keeps_linked_dispatch h ev :
  keeps linked (FSAsyncEventHandler.dispatch h ev).
Proof.
  unfold FSAsyncEventHandler.dispatch.
  destruct (String.eqb _ _); [|apply keeps_ret].
  apply keeps_bind; [|intros; apply keeps_linked_call_soon].
  unfold call_callable. destruct (iscoroutinefunction _); [apply keeps_ret|].
  apply keeps_bind; [apply keeps_linked_log|intros; apply keeps_ret].
Qed.

Lemma keeps_linked_dispatch_all hs w ev : keeps linked (dispatch_all hs w ev).
Proof.
  induction hs as [|[w' h] hs IH]; simpl; [apply keeps_ret|].
  apply keeps_bind; [|done].
  destruct (decide (w' = w)); [apply keeps_linked_dispatch|apply keeps_ret].
Qed.

Lemma keeps_linked_deliver w ev :
  keeps linked (deliver FSWatcher.observer_loc w ev).
Proof.
  intros σ H. destruct (linked_observer σ H) as (o & Ho).
  unfold deliver. rewrite (deref_observer_at _ _ _ Ho).
  destruct (watchdog.can_deliver o); [|done].
  pose proof (keeps_linked_dispatch_all (handlers o) w ev σ H) as Ha.
  destruct (dispatch_all _ _ _ σ) as [[[]| |] σ2]; simpl in *; try done.
  by apply keeps_linked_kill_thread.
Qed.

Lemma keeps_linked_close_loop l : keeps linked (close_loop l).
Proof.
  intros σ H. unfold close_loop. run_py.
  destruct (heap σ !! l) as [[| |lp|]|] eqn:Hl; simpl; try done.
  by eapply linked_store_loop.
Qed.

Lemma keeps_linked_decorator id kind path f :
  keeps linked (FSWatcher.decorator (FSWatcher.new id) kind path f).
Proof.
  intros σ (o & cbs & Ho & Hc & Hh).
  rewrite (decorator_at _ _ _ _ _ _ Hc). simpl.
  exists o, (cbs ++ [FSCallback.mk kind path f]). simpl.
  rewrite lookup_insert_eq, lookup_insert_ne by done.
  repeat split; [done|].
  eapply Forall_impl; [exact Hh|].
  intros wh. apply registered_from_mono. set_solver.
Qed.

Lemma keeps_linked_start_method id :
  keeps linked (FSWatcher.start (FSWatcher.new id)).
Proof. intros σ H. rewrite start_new. by apply keeps_linked_start. Qed.

Lemma keeps_linked_stop_method id :
  keeps linked (FSWatcher.stop (FSWatcher.new id)).
Proof.
  intros σ H. rewrite stop_new. revert σ H.
  apply keeps_bind; [apply keeps_linked_stop|].
  intros; apply keeps_linked_join.
Qed.

(** The loop of [run_async] over callbacks taken from the list keeps the
    link: what it subscribes is the adapter of a coroutine function of the
    list. *)
Lemma linked_subscribe id rest σ cbs :
  linked σ →
  heap σ !! FSWatcher.callbacks_loc = Some (OList cbs) →
  rest ⊆ cbs →
  linked (snd (FSWatcher.subscribe (FSWatcher.new id) rest σ)).
Proof.
  revert σ. induction rest as [|cb rest IH]; intros σ H Hc Hsub; [done|].
  simpl. destruct (iscoroutinefunction _) eqn:Hco; [|done].
  destruct H as (o & cbs' & Ho & Hc' & Hh).
  rewrite Hc in Hc'. injection Hc' as <-.
  erewrite bind_returned; [|apply getattr_observer].
  erewrite bind_returned; [|by apply schedule_at].
  apply IH.
  - eexists _, cbs. simpl.
    rewrite lookup_insert_eq, lookup_insert_ne by done.
    repeat split; [done|]. simpl. apply Forall_app. split; [done|].
    constructor; [|constructor].
    exists cb. repeat split; [set_solver|done].
  - simpl. by rewrite lookup_insert_ne.
  - set_solver.
Qed.

Lemma keeps_linked_run_async_begin id :
  keeps linked (run_async_begin (FSWatcher.new id)).
Proof.
  intros σ H. pose proof H as (o & cbs & Ho & Hc & Hh).
  unfold run_async_begin.
  erewrite bind_returned; [|apply getattr_callbacks].
  erewrite bind_returned; [|by apply deref_list_at].
  pose proof (linked_subscribe id cbs σ cbs H Hc (reflexivity _)) as Hs.
  unfold mbind, Py_bind.
  destruct (FSWatcher.subscribe _ cbs σ) as [[[]| |] σ1]; simpl in *;
    try done.
  by apply keeps_linked_start_method.
Qed.

Lemma keeps_linked_for_range n (body : Py unit) :
  keeps linked body → keeps linked (for_range n body).
Proof.
  intros Hb. induction n as [|n IH]; simpl; [apply keeps_ret|].
  by apply keeps_bind.
Qed.

Lemma keeps_linked_run_async id :
  keeps linked (FSWatcher.run_async (FSWatcher.new id)).
Proof.
  intros σ H. rewrite run_async_phases. revert σ H.
  apply keeps_bind; [apply keeps_linked_run_async_begin|intros _].
  apply keeps_bind; [|intros _; apply keeps_linked_stop_method].
  apply keeps_linked_for_range. apply keeps_linked_log.
Qed.

Lemma keeps_linked_watch id : keeps linked (FSWatcher.watch (FSWatcher.new id)).
Proof.
  unfold FSWatcher.watch, asyncio.run_until_complete.
  apply keeps_bind; [by intros σ H; rewrite getattr_loop|intros l].
  apply keeps_bind.
  { intros σ H. unfold deref_loop. by destruct (heap σ !! l) as [[| | |]|]. }
  intros lp. destruct (closed lp); [by intros σ H|apply keeps_linked_run_async].
Qed.

Lemma keeps_linked_unlink path : keeps linked (unlink path).
Proof.
  intros σ (o & cbs & Ho & Hc & Hh). exists o, cbs.
  unfold unlink. simpl. by rewrite !lookup_insert_ne.
Qed.

Lemma linked_exec op σ : linked σ → linked (exec op σ).
Proof.
  intros H. destruct op as [r id path f| | | | | | | | | |]; simpl.
  - rewrite registrar_is_decorator. by apply keeps_linked_decorator.
  - by apply keeps_linked_run_async.
  - by apply keeps_linked_run_async_begin.
  - by apply (keeps_linked_log (Sleep 1)).
  - by apply keeps_linked_watch.
  - by apply keeps_linked_start_method.
  - by apply keeps_linked_stop_method.
  - done.
  - by apply keeps_linked_deliver.
  - by apply keeps_linked_close_loop.
  - by apply keeps_linked_unlink.
Qed.

(** X8. In every reachable world each subscription the observer holds is
    the adapter of a registration that is in the callback list and whose
    handler is a coroutine function: it watches that registration's path
    recursively, triggers on that registration's kind, calls that
    registration's handler and schedules on the default loop. *)
Theorem subscriptions_stem_from_registrations
    (σ : World) (o : Observer) (cbs : list FSCallback.t)
    (w : ObservedWatch) (h : Handler.t) :
  reachable σ →
  observer_of σ = Some o →
  callbacks_of σ = Some cbs →
  (w, h) ∈ handlers o →
  ∃ cb, cb ∈ cbs
    ∧ iscoroutinefunction (FSCallback.callback_function cb) = true
    ∧ w = {| watch_path := FSCallback.event_path cb; watch_recursive := true |}
    ∧ h = {| Handler.callback_function := FSCallback.callback_function cb;
             Handler.loop := FSAsyncEventHandler.default_loop;
             Handler.event_type_trigger := FSCallback.event_type cb |}.
Proof.
  intros Hreach Ho Hc Hin.
  assert (linked σ) as (o' & cbs' & Ho' & Hc' & Hh).
  { clear Ho Hc Hin. induction Hreach as [|σ op _ IH]; [|by apply linked_exec].
    exists fresh_observer, []. repeat split; try reflexivity. constructor. }
  unfold observer_of in Ho. rewrite Ho' in Ho. injection Ho as ->.
  unfold callbacks_of in Hc. rewrite Hc' in Hc. injection Hc as ->.
  rewrite Forall_forall in Hh.
  destruct (Hh (w, h) Hin) as (cb & Hcb & Hco & Heq).
  unfold adapter in Heq. injection Heq as -> ->.
  exists cb. by repeat split.
Qed.

Lemma subscriptions_stem_from_registrations_witness :
  ∃ cb, cb ∈ [created_registration]
    ∧ iscoroutinefunction (FSCallback.callback_function cb) = true
    ∧ watched
      = {| watch_path := FSCallback.event_path cb; watch_recursive := true |}
    ∧ created_handler
      = {| Handler.callback_function := FSCallback.callback_function cb;
           Handler.loop := FSAsyncEventHandler.default_loop;
           Handler.event_type_trigger := FSCallback.event_type cb |}.
Proof.
  apply (subscriptions_stem_from_registrations watching_world
           {| started := true; stopped_event := false; terminated := false;
              handlers := [adapter created_registration] |}
           [created_registration] watched created_handler).
  - apply (reachable_step _ (OpRunAsyncBegin 0)).
    apply (reachable_step _ (OpRegister OnCreated 0 "/tmp/watched" say_hello)).
    apply reachable_init.
  - reflexivity.
  - reflexivity.
  - left.
Defined.
